(** * gdpc: the buffered block-writing client and the world-slice cache

    A shallow embedding of [interfaceUtils.py] (class [Interface]) and of
    [gdpc/worldLoader.py] (classes [CachedSection] and [WorldSlice]).

    Python integers are [Z]; [//] and [%] by the positive constant 16 are
    [Z.div] and [Z.modulo] (both floor, like Python's).  Exceptions are made
    explicit: a call yields [Return v] or [Raise e].  Python lists indexed by
    an integer follow [py_getitem] and [py_setitem], which wrap a negative
    index once and raise [IndexError] outside [-len, len). *)

From Stdlib Require Import ZArith Lia.
From stdpp Require Import base option list list_numbers sorting strings pretty gmap.

Local Open Scope string_scope.
Local Open Scope list_scope.
Local Open Scope Z_scope.

(** ** Python values and control flow shared by both modules *)

Inductive exn : Type :=
  | IndexError
  | KeyError
  | ValueError
  | ConnectionError
  | RequestException
  | RangeError
  | MalformedPayload.

Global Instance exn_eq_dec : EqDecision exn.
Proof. solve_decision. Defined.

Inductive result (A : Type) : Type :=
  | Return (a : A)
  | Raise (e : exn).
Arguments Return {A} a.
Arguments Raise {A} e.

Definition is_error {A} (r : result A) : bool :=
  match r with Return _ => false | Raise _ => true end.

Definition rbind {A B} (r : result A) (k : A -> result B) : result B :=
  match r with
  | Return a => k a
  | Raise e => Raise e
  end.

(** [l[i]] for a Python list (also a numpy axis): negative indices count from
    the end, anything outside [-len l, len l) raises [IndexError]. *)
Definition py_norm (len i : Z) : option nat :=
  if (0 <=? i) && (i <? len) then Some (Z.to_nat i)
  else if (- len <=? i) && (i <? 0) then Some (Z.to_nat (len + i))
  else None.

Definition py_getitem {A} (l : list A) (i : Z) : result A :=
  match py_norm (Z.of_nat (length l)) i with
  | Some n =>
      match l !! n with
      | Some a => Return a
      | None => Raise IndexError
      end
  | None => Raise IndexError
  end.

(** [l[i] = v] *)
Definition py_setitem {A} (l : list A) (i : Z) (v : A) : result (list A) :=
  match py_norm (Z.of_nat (length l)) i with
  | Some n => Return (<[n := v]> l)
  | None => Raise IndexError
  end.

(** [range(lo, hi)] *)
Definition range (lo hi : Z) : list Z := seqZ lo (hi - lo).

(** ['{}'.format(n)] for an integer. *)
Definition fmt (n : Z) : string := pretty n.

(** [str.join(sep, parts)] *)
Fixpoint join (sep : string) (parts : list string) : string :=
  match parts with
  | [] => ""
  | [p] => p
  | p :: rest => p +:+ sep +:+ join sep rest
  end.

Definition newline : string := String (Ascii.ascii_of_nat 10) EmptyString.

(** ** interfaceUtils.py *)

Module interfaceUtils.

(** One entry of [self.buffer]: global coordinates and the block string. *)
Definition placement : Type := Z * Z * Z * string.

Record Interface : Type := mkInterface {
  offset : Z * Z * Z;
  buffering : bool;          (* self.__buffering *)
  bufferlimit : Z;
  buffer : list placement
}.

(** What goes over the wire, in the order it was sent. *)
Inductive request : Type :=
  | PUT (url body : string)
  | GET (url : string).

(** What [requests.put] does with one request: it returns a response with
    the given [text], or it raises. *)
Inductive reply : Type :=
  | Response (text : string)
  | Throws (e : exn).

(** The object together with the traffic it has caused so far. *)
Record state : Type := mkState {
  self : Interface;
  sent : list request
}.

Definition M (A : Type) : Type := state -> result A * state.

Definition ret {A} (a : A) : M A := fun s => (Return a, s).
Definition throw {A} (e : exn) : M A := fun s => (Raise e, s).
Definition bind {A B} (m : M A) (k : A -> M B) : M B :=
  fun s => match m s with
           | (Return a, s') => k a s'
           | (Raise e, s') => (Raise e, s')
           end.

Notation "x <- m ;; k" := (bind m (fun x => k))
  (at level 100, m at next level, right associativity).
Notation "m ;;; k" := (bind m (fun _ => k))
  (at level 100, right associativity).

(** Field updates, [self.__buffering = b] and [self.buffer = l]. *)
Definition with_buffering (i : Interface) (b : bool) : Interface :=
  mkInterface (offset i) b (bufferlimit i) (buffer i).

Definition with_buffer (i : Interface) (l : list placement) : Interface :=
  mkInterface (offset i) (buffering i) (bufferlimit i) l.

Definition set_buffering (b : bool) : M unit := fun s =>
  (Return tt, mkState (with_buffering (self s) b) (sent s)).

Definition set_buffer (l : list placement) : M unit := fun s =>
  (Return tt, mkState (with_buffer (self s) l) (sent s)).

(** [for a in l: body a], stopping at the first exception. *)
Fixpoint for_each {A} (l : list A) (body : A -> M unit) : M unit :=
  match l with
  | [] => ret tt
  | a :: rest => body a ;;; for_each rest body
  end.

(** [Interface.__init__]: both [buffering] and [bufferlimit] are accepted and
    the fields are set from constants. *)
Definition __init__ (offset : Z * Z * Z) (buffering : bool) (bufferlimit : Z)
  : Interface :=
  {| offset := offset;
     buffering := false;
     bufferlimit := 4096;
     buffer := [] |}.

Definition blocks_url (x y z : Z) : string :=
  "http://localhost:9000/blocks?x=" +:+ fmt x +:+ "&y=" +:+ fmt y +:+ "&z=" +:+ fmt z.

(** One line of the request body: the four fields of [bp], separated by
    single spaces. *)
Definition fmt_placement (bp : placement) : string :=
  let '(x, y, z, blk) := bp in
  fmt x +:+ " " +:+ fmt y +:+ " " +:+ fmt z +:+ " " +:+ blk.

Definition body_of (buf : list placement) : string :=
  join newline (fmt_placement <$> buf).

(** The request one attempt of [sendBlocks(x, y, z)] puts on the wire. *)
Definition flush_request (x y z : Z) (i : Interface) : request :=
  PUT (blocks_url x y z) (body_of (buffer i)).

(** [local2global]: a coordinate that is [None] is left out of the result. *)
Definition local2global (i : Interface) (x y z : option Z) : list Z :=
  let '(ox, oy, oz) := offset i in
  match x with Some x => [x + ox] | None => [] end ++
  match y with Some y => [y + oy] | None => [] end ++
  match z with Some z => [z + oz] | None => [] end.

Definition global2local (i : Interface) (x y z : option Z) : list Z :=
  let '(ox, oy, oz) := offset i in
  match x with Some x => [x - ox] | None => [] end ++
  match y with Some y => [y - oy] | None => [] end ++
  match z with Some z => [z - oz] | None => [] end.

(** [x, y, z = <list>] *)
Definition unpack3 (l : list Z) : M (Z * Z * Z) :=
  match l with
  | [x; y; z] => ret (x, y, z)
  | _ => throw ValueError
  end.

(** The buffer entry a call [setBlock(x, y, z, blk)] stands for. *)
Definition to_global (i : Interface) (c : placement) : placement :=
  let '(x, y, z, blk) := c in
  let '(ox, oy, oz) := offset i in
  (x + ox, y + oy, z + oz, blk).

(** The integer points of the inclusive cuboid, in the order of the three
    nested loops of [fill]. *)
Definition cuboid (xlo xhi ylo yhi zlo zhi : Z) : list (Z * Z * Z) :=
  range xlo (xhi + 1) ≫= (fun x =>
  range ylo (yhi + 1) ≫= (fun y =>
  (fun z => (x, y, z)) <$> range zlo (zhi + 1))).

(** A transport whose only failure is the connection error. *)
Definition transient_only (server : nat -> reply) : Prop :=
  forall n e, server n = Throws e -> e = ConnectionError.

Section Transport.

(** The server side of [requests.put]: the reply to the request that is
    sent after [n] earlier ones. *)
Variable server : nat -> reply.

Definition requests_put (url body : string) : M string := fun s =>
  let s' := mkState (self s) (sent s ++ [PUT url body]) in
  match server (length (sent s)) with
  | Response text => (Return text, s')
  | Throws e => (Raise e, s')
  end.

(** [try: m  except ConnectionError: handler] *)
Definition except_ConnectionError {A} (m : M A) (handler : M A) : M A :=
  fun s => match m s with
           | (Raise ConnectionError, s') => handler s'
           | other => other
           end.

(** [sendBlocks]: the body is rebuilt from [self.buffer] on every attempt;
    [retries] counts the attempts that may still follow this one. *)
Fixpoint sendBlocks_from (x y z : Z) (retries : nat) : M (option string) :=
  fun s =>
    let url := blocks_url x y z in
    let body := body_of (buffer (self s)) in
    except_ConnectionError
      (text <- requests_put url body ;;
       set_buffer [] ;;;
       ret (Some text))
      (match retries with
       | S r => sendBlocks_from x y z r
       | O => ret None
       end) s.

Definition sendBlocks (x y z retries : Z) : M (option string) :=
  sendBlocks_from x y z (Z.to_nat retries).

(** [self.sendBlocks()] with the defaults [x=0, y=0, z=0, retries=5]. *)
Definition sendBlocks_default : M (option string) := sendBlocks 0 0 0 5.

Definition placeBlock (x y z : Z) (blk : string) : M string := fun s =>
  (xyz <- unpack3 (local2global (self s) (Some x) (Some y) (Some z)) ;;
   let '(gx, gy, gz) := xyz in
   except_ConnectionError
     (requests_put (blocks_url gx gy gz) blk)
     (ret "0")) s.

Definition placeBlockBatched (x y z : Z) (blk : string) (limit : Z)
  : M (option string) := fun s =>
  (xyz <- unpack3 (local2global (self s) (Some x) (Some y) (Some z)) ;;
   let '(gx, gy, gz) := xyz in
   (fun s1 => set_buffer (buffer (self s1) ++ [(gx, gy, gz, blk)]) s1) ;;;
   (fun s2 =>
      if Z.of_nat (length (buffer (self s2))) >=? limit
      then sendBlocks_default s2
      else ret None s2)) s.

Definition setBlock (x y z : Z) (blk : string) : M unit := fun s =>
  (if buffering (self s)
   then placeBlockBatched x y z blk (bufferlimit (self s)) ;;; ret tt
   else placeBlock x y z blk ;;; ret tt) s.

(** A run of [setBlock] calls, one per entry of [calls]. *)
Definition setBlocks (calls : list placement) : M unit :=
  for_each calls (fun '(x, y, z, blk) => setBlock x y z blk).

Definition fill (x1 y1 z1 x2 y2 z2 : Z) (blk : string) : M unit := fun s =>
  (p1 <- unpack3 (local2global (self s) (Some x1) (Some y1) (Some z1)) ;;
   p2 <- unpack3 (local2global (self s) (Some x2) (Some y2) (Some z2)) ;;
   let '(x1, y1, z1) := p1 in
   let '(x2, y2, z2) := p2 in
   let '(xlo, ylo, zlo) := (Z.min x1 x2, Z.min y1 y2, Z.min z1 z2) in
   let '(xhi, yhi, zhi) := (Z.max x1 x2, Z.max y1 y2, Z.max z1 z2) in
   for_each (range xlo (xhi + 1)) (fun x =>
     for_each (range ylo (yhi + 1)) (fun y =>
       for_each (range zlo (zhi + 1)) (fun z =>
         setBlock x y z blk)))) s.

(** The [Buffering] property: getter and setter. *)
Definition Buffering : M bool := fun s => ret (buffering (self s)) s.

Definition Buffering_set (value : bool) : M unit :=
  set_buffering value ;;;
  (fun s =>
     if buffering (self s) then ret tt s
     else (sendBlocks_default ;;; ret tt) s).

Definition toggleBuffer : M bool :=
  b <- Buffering ;;
  Buffering_set (negb b) ;;;
  Buffering.

(** [__del__] *)
Definition __del__ : M unit := sendBlocks_default ;;; ret tt.

(** [requests.get(url)] *)
Definition requests_get (url : string) : M string := fun s =>
  let s' := mkState (self s) (sent s ++ [GET url]) in
  match server (length (sent s)) with
  | Response text => (Return text, s')
  | Throws e => (Raise e, s')
  end.

Definition getBlock (x y z : Z) : M string := fun s =>
  (xyz <- unpack3 (local2global (self s) (Some x) (Some y) (Some z)) ;;
   let '(gx, gy, gz) := xyz in
   except_ConnectionError
     (requests_get (blocks_url gx gy gz))
     (ret "minecraft:void_air")) s.

End Transport.

(** *** [requestBuildArea]

    The reply to [GET /buildarea] is read through [response.ok] and
    [response.json()]; the document is either the number -1 or an object
    with the four corner fields. *)
Inductive area_json : Type :=
  | JsonMinusOne
  | JsonArea (xFrom zFrom xTo zTo : Z).

Inductive area_reply : Type :=
  | AreaResponse (ok : bool) (text : string) (json : area_json)
  | AreaThrows (e : exn).

(** What the method returns: the number -1 or a tuple of integers. *)
Inductive build_area : Type :=
  | MinusOne
  | Tuple (items : list Z).

Definition buildarea_url : string := "http://localhost:9000/buildarea".

Section BuildArea.

Variable area_server : nat -> area_reply.

Definition requestBuildArea : M build_area := fun s =>
  let s' := mkState (self s) (sent s ++ [GET buildarea_url]) in
  match area_server (length (sent s)) with
  | AreaThrows e => (Raise e, s')
  | AreaResponse ok text json =>
      if ok then
        match json with
        | JsonMinusOne => (Return MinusOne, s')
        | JsonArea x1 z1 x2 z2 =>
            (Return (Tuple (global2local (self s) (Some x1) None (Some z1) ++
                            global2local (self s) (Some (x2 - x1)) None
                                         (Some (z2 - z1)))),
             s')
        end
      else (Return MinusOne, s')
  end.

End BuildArea.

(** *** The deprecated module-level functions

    They share one module-level list, [blockBuffer], hold global
    coordinates, and write each entry with a tilde before every number. *)
Module deprecated.

Record gstate : Type := mkGstate {
  blockBuffer : list placement;
  wire : list request
}.

Definition G (A : Type) : Type := gstate -> result A * gstate.

Definition fmt_relative (bp : placement) : string :=
  let '(x, y, z, blk) := bp in
  "~" +:+ fmt x +:+ " ~" +:+ fmt y +:+ " ~" +:+ fmt z +:+ " " +:+ blk.

Definition relative_body (buf : list placement) : string :=
  join newline (fmt_relative <$> buf).

Section LegacyTransport.

Variable server : nat -> reply.

Fixpoint sendBlocks_from (x y z : Z) (retries : nat) : G (option string) :=
  fun g =>
    let g1 := mkGstate (blockBuffer g)
                (wire g ++ [PUT (blocks_url x y z) (relative_body (blockBuffer g))]) in
    match server (length (wire g)) with
    | Response text => (Return (Some text), mkGstate [] (wire g1))
    | Throws ConnectionError =>
        match retries with
        | S r => sendBlocks_from x y z r g1
        | O => (Return None, g1)
        end
    | Throws e => (Raise e, g1)
    end.

Definition sendBlocks (x y z retries : Z) : G (option string) :=
  sendBlocks_from x y z (Z.to_nat retries).

Definition placeBlockBatched (x y z : Z) (blk : string) (limit : Z)
  : G (option string) := fun g =>
  let g1 := mkGstate (blockBuffer g ++ [(x, y, z, blk)]) (wire g) in
  if Z.of_nat (length (blockBuffer g1)) >=? limit
  then sendBlocks 0 0 0 5 g1
  else (Return None, g1).

Definition setBlock (x y z : Z) (blk : string) : G string := fun g =>
  let g1 := mkGstate (blockBuffer g) (wire g ++ [PUT (blocks_url x y z) blk]) in
  match server (length (wire g)) with
  | Response text => (Return text, g1)
  | Throws ConnectionError => (Return "0", g1)
  | Throws e => (Raise e, g1)
  end.

Definition getBlock (x y z : Z) : G string := fun g =>
  let g1 := mkGstate (blockBuffer g) (wire g ++ [GET (blocks_url x y z)]) in
  match server (length (wire g)) with
  | Response text => (Return text, g1)
  | Throws ConnectionError => (Return "minecraft:void_air", g1)
  | Throws e => (Raise e, g1)
  end.

End LegacyTransport.

End deprecated.

End interfaceUtils.

(** ** gdpc/worldLoader.py *)

Module worldLoader.

(** [for a in l: s = f s a], stopping at the first exception. *)
Fixpoint foldM {A S} (f : S -> A -> result S) (l : list A) (s : S) : result S :=
  match l with
  | [] => Return s
  | a :: rest => rbind (f s a) (foldM f rest)
  end.

(** *** The decoded chunk tree, as the NBT reader hands it over *)

(** A palette entry: a compound with a [Name] and optional [Properties]. *)
Record BlockCompound : Type := mkBlock {
  Name : string;
  Properties : list (string * string)
}.

(** One entry of a chunk's [Sections] list.  [Palette] and [BlockStates] are
    optional tags. *)
Record NbtSection : Type := mkSection {
  Y : Z;
  Palette : option (list BlockCompound);
  BlockStates : option (list Z)
}.

Record NbtChunk : Type := mkChunk {
  Heightmaps : gmap string (list Z);
  Sections : list NbtSection;
  Biomes : list Z
}.

(** *** The bit array of [gdpc/bitarray.py]

    The class is used by [worldLoader.py] through its constructor
    [BitArray(bitsPerEntry, arraySize, data)] and its method [getAt(index)]
    only, so the loader is written against this interface. *)
Class Codec : Type := {
  bitarray : Type;
  BitArray : Z -> Z -> list Z -> result bitarray;
  getAt : bitarray -> Z -> result Z
}.

(** The two classes of the module, over the type [B] of bit arrays. *)
Record CachedSection_of (B : Type) : Type := mkCachedSection {
  palette : list BlockCompound;
  blockStatesBitArray : B
}.
Arguments mkCachedSection {B} palette blockStatesBitArray.
Arguments palette {B} c.
Arguments blockStatesBitArray {B} c.

Record WorldSlice_of (B : Type) : Type := mkWorldSlice {
  rect : Z * Z * Z * Z;
  chunkRect : Z * Z * Z * Z;
  heightmapTypes : list string;
  nbtfile : list NbtChunk;              (* nbtfile['Chunks'] *)
  heightmaps : gmap string (list (list Z));
  sections : list (list (list (option (CachedSection_of B))))
}.
Arguments mkWorldSlice {B} rect chunkRect heightmapTypes nbtfile heightmaps sections.
Arguments rect {B} w.
Arguments chunkRect {B} w.
Arguments heightmapTypes {B} w.
Arguments nbtfile {B} w.
Arguments heightmaps {B} w.
Arguments sections {B} w.

Section Loader.

Context `{codec : Codec}.

Abbreviation CachedSection := (CachedSection_of bitarray).
Abbreviation WorldSlice := (WorldSlice_of bitarray).

(** A two-dimensional numpy array of integers, row by row. *)
Abbreviation ndarray := (list (list Z)).

(** [np.zeros((rows, cols), dtype=int)] *)
Definition np_zeros (rows cols : Z) : result ndarray :=
  if (rows <? 0) || (cols <? 0) then Raise ValueError
  else Return (replicate (Z.to_nat rows) (replicate (Z.to_nat cols) 0)).

(** [a[i, j] = v] on a numpy array: each axis is indexed like a list. *)
Definition np_setitem2 (a : ndarray) (i j v : Z) : result ndarray :=
  match py_norm (Z.of_nat (length a)) i with
  | None => Raise IndexError
  | Some r =>
      match a !! r with
      | None => Raise IndexError
      | Some row =>
          match py_norm (Z.of_nat (length row)) j with
          | None => Raise IndexError
          | Some c => Return (<[r := <[c := v]> row]> a)
          end
      end
  end.

(** [int(ceil(d / 16))] *)
Definition ceil_div16 (d : Z) : Z := - ((- d) / 16).

(** [int(max(4, ceil(log2(n))))]; for [n = 0] numpy's [log2] is minus
    infinity and the maximum is 4. *)
Definition bitsPerEntry_of (n : Z) : Z := Z.max 4 (Z.log2_up n).

Definition default_heightmapTypes : list string :=
  ["MOTION_BLOCKING"; "MOTION_BLOCKING_NO_LEAVES"; "OCEAN_FLOOR"; "WORLD_SURFACE"].

(** **** Height maps *)

(** The body of the two innermost loops:
    [try: heightmap[i, j] = sample  except IndexError: pass].
    The right-hand side is evaluated first. *)
Definition store_sample (hm : ndarray) (i j : Z) (sample : result Z)
  : result ndarray :=
  match sample with
  | Raise IndexError => Return hm
  | Raise e => Raise e
  | Return v =>
      match np_setitem2 hm i j v with
      | Raise IndexError => Return hm
      | other => other
      end
  end.

(** [for cz in range(16): for cx in range(16): ...] for chunk [(x, z)]. *)
Definition load_chunk_heightmap (rectOffset : Z * Z) (x z : Z)
    (heightmapBitArray : bitarray) (hm : ndarray) : result ndarray :=
  foldM (fun hm cz =>
    foldM (fun hm cx =>
      store_sample hm
        (- fst rectOffset + x * 16 + cx)
        (- snd rectOffset + z * 16 + cz)
        (getAt heightmapBitArray (cz * 16 + cx)))
      (range 0 16) hm)
    (range 0 16) hm.

Definition dict_get {V} (d : gmap string V) (k : string) : result V :=
  match d !! k with
  | Some v => Return v
  | None => Raise KeyError
  end.

(** [for hmName in self.heightmapTypes: ...] for chunk [(x, z)]. *)
Definition load_chunk_heightmaps (types : list string) (rectOffset : Z * Z)
    (x z : Z) (hms : gmap string (list Z)) (maps : gmap string ndarray)
  : result (gmap string ndarray) :=
  foldM (fun maps hmName =>
    rbind (dict_get hms hmName) (fun hmRaw =>
    rbind (BitArray 9 (16 * 16) hmRaw) (fun heightmapBitArray =>
    rbind (dict_get maps hmName) (fun heightmap =>
    rbind (load_chunk_heightmap rectOffset x z heightmapBitArray heightmap)
      (fun heightmap' => Return (<[hmName := heightmap']> maps))))))
    types maps.

(** [for x in range(chunkRect[2]): for z in range(chunkRect[3]): body]. *)
Definition for_chunks {S} (cxl czl : Z) (chunks : list NbtChunk)
    (body : Z -> Z -> NbtChunk -> S -> result S) (s : S) : result S :=
  foldM (fun s x =>
    foldM (fun s z =>
      let chunkID := x + z * cxl in
      rbind (py_getitem chunks chunkID) (fun chunk => body x z chunk s))
      (range 0 czl) s)
    (range 0 cxl) s.

Definition load_heightmaps (types : list string) (rectOffset : Z * Z)
    (cxl czl : Z) (chunks : list NbtChunk) (maps : gmap string ndarray)
  : result (gmap string ndarray) :=
  for_chunks cxl czl chunks
    (fun x z chunk maps =>
       load_chunk_heightmaps types rectOffset x z (Heightmaps chunk) maps)
    maps.

(** [self.heightmaps[hmName] = np.zeros(...)] for every requested type. *)
Definition init_heightmaps (types : list string) (w h : Z)
  : result (gmap string ndarray) :=
  foldM (fun maps hmName =>
    rbind (np_zeros (w + 1) (h + 1)) (fun a => Return (<[hmName := a]> maps)))
    types ∅.

(** **** Sections *)

Abbreviation sections_t := (list (list (list (option CachedSection)))).

Definition init_sections (cxl czl : Z) : sections_t :=
  replicate (Z.to_nat cxl) (replicate (Z.to_nat czl) (replicate 16 None)).

(** [self.sections[x][z][y] = v] *)
Definition set_section (secs : sections_t) (x z y : Z) (v : option CachedSection)
  : result sections_t :=
  rbind (py_getitem secs x) (fun col =>
  rbind (py_getitem col z) (fun cell =>
  rbind (py_setitem cell y v) (fun cell' =>
  rbind (py_setitem col z cell') (fun col' =>
  py_setitem secs x col')))).

(** [not ('BlockStates' in section) or len(section['BlockStates']) == 0] *)
Definition no_block_states (section : NbtSection) : bool :=
  match BlockStates section with
  | None => true
  | Some raw => Nat.eqb (length raw) 0
  end.

(** The body of [for section in chunkSections]. *)
Definition load_section (x z : Z) (secs : sections_t) (section : NbtSection)
  : result sections_t :=
  let y := Y section in
  if no_block_states section then Return secs
  else
    rbind (match Palette section with
           | Some p => Return p
           | None => Raise KeyError
           end) (fun palette =>
    let rawBlockStates := default [] (BlockStates section) in
    let bitsPerEntry := bitsPerEntry_of (Z.of_nat (length palette)) in
    rbind (BitArray bitsPerEntry (16 * 16 * 16) rawBlockStates)
      (fun blockStatesBitArray =>
    set_section secs x z y
      (Some (mkCachedSection palette blockStatesBitArray)))).

Definition load_sections (cxl czl : Z) (chunks : list NbtChunk)
    (secs : sections_t) : result sections_t :=
  for_chunks cxl czl chunks
    (fun x z chunk secs => foldM (load_section x z) (Sections chunk) secs)
    secs.

(** [WorldSlice.__init__] followed by [_load_slice].  [chunks] is what the
    NBT reader makes of the bytes fetched for [chunkRect]. *)
Definition __init__ (x1 z1 x2 z2 : Z) (heightmapTypes : option (list string))
    (chunks : list NbtChunk) : result WorldSlice :=
  let heightmapTypes := default default_heightmapTypes heightmapTypes in
  let rect := (x1, z1, x2 - x1, z2 - z1) in
  let cxl := ceil_div16 (x2 - x1) in
  let czl := ceil_div16 (z2 - z1) in
  let chunkRect := (x1 / 16, z1 / 16, cxl, czl) in
  let rectOffset := (x1 mod 16, z1 mod 16) in
  rbind (init_heightmaps heightmapTypes (x2 - x1) (z2 - z1)) (fun maps0 =>
  let secs0 := init_sections cxl czl in
  rbind (load_heightmaps heightmapTypes rectOffset cxl czl chunks maps0)
    (fun maps =>
  rbind (load_sections cxl czl chunks secs0) (fun secs =>
  Return (mkWorldSlice rect chunkRect heightmapTypes chunks maps secs)))).

(** **** Queries *)

(** [self.sections[chunkX][chunkZ][chunkY]] *)
Definition get_section (secs : sections_t) (chunkX chunkZ chunkY : Z)
  : result (option CachedSection) :=
  rbind (py_getitem secs chunkX) (fun col =>
  rbind (py_getitem col chunkZ) (fun cell =>
  py_getitem cell chunkY)).

Definition getBlockCompoundAt (ws : WorldSlice) (x y z : Z)
  : result (option BlockCompound) :=
  let '(crx, crz, _, _) := chunkRect ws in
  let chunkX := x / 16 - crx in
  let chunkZ := z / 16 - crz in
  let chunkY := y / 16 in
  match get_section (sections ws) chunkX chunkZ chunkY with
  | Raise IndexError => Return None
  | Raise e => Raise e
  | Return None => Return None
  | Return (Some cachedSection) =>
      let bitarray := blockStatesBitArray cachedSection in
      let palette := palette cachedSection in
      let blockIndex := (y mod 16) * 16 * 16 + (z mod 16) * 16 + x mod 16 in
      rbind (getAt bitarray blockIndex) (fun idx =>
      rbind (py_getitem palette idx) (fun compound =>
      Return (Some compound)))
  end.

Definition getBlockAt (ws : WorldSlice) (x y z : Z) : result string :=
  rbind (getBlockCompoundAt ws x y z) (fun blockCompound =>
  match blockCompound with
  | None => Return "minecraft:void_air"
  | Some c => Return (Name c)
  end).

(** **** Two invariants of the section table *)

(** The section table is rectangular: [nx] columns of [nz] cells of 16. *)
Definition shaped (nx nz : nat) (secs : sections_t) : Prop :=
  length secs = nx /\
  Forall (fun col => length col = nz /\
                     Forall (fun cell => length cell = 16%nat) col) secs.


(** The body of the inner chunk loop of the section loader, for column
    [x]. *)
Definition zbody (cxl : Z) (chunks : list NbtChunk) (x : Z)
    (s : sections_t) (z : Z) : result sections_t :=
  rbind (py_getitem chunks (x + z * cxl))
        (fun chunk => foldM (load_section x z) (Sections chunk) s).

(** The body of the loop over the height-map types, for chunk [(x, z)]
    with height-map tags [hms]. *)
Definition tstep (rectOffset : Z * Z) (x z : Z) (hms : gmap string (list Z))
    (maps : gmap string ndarray) (hmName : string) : result (gmap string ndarray) :=
  rbind (dict_get hms hmName) (fun hmRaw =>
  rbind (BitArray 9 (16 * 16) hmRaw) (fun heightmapBitArray =>
  rbind (dict_get maps hmName) (fun heightmap =>
  rbind (load_chunk_heightmap rectOffset x z heightmapBitArray heightmap)
    (fun heightmap' => Return (<[hmName := heightmap']> maps))))).

(** The body of the inner chunk loop of the height-map loader, for column
    [x]. *)
Definition hbody (types : list string) (rectOffset : Z * Z) (cxl : Z)
    (chunks : list NbtChunk) (x : Z) (maps : gmap string ndarray) (z : Z)
  : result (gmap string ndarray) :=
  rbind (py_getitem chunks (x + z * cxl)) (fun chunk =>
    load_chunk_heightmaps types rectOffset x z (Heightmaps chunk) maps).

(** **** Shapes and cells of the grids *)

(** A height map of [rows] rows and [cols] columns. *)
Definition grid_shaped (rows cols : nat) (g : ndarray) : Prop :=
  length g = rows /\ Forall (fun row => length row = cols) g.

(** [g[i][j]] for indices inside the grid. *)
Definition grid_at (g : ndarray) (i j : nat) : option Z :=
  match g !! i with
  | Some row => row !! j
  | None => None
  end.

(** The height map named [nm] exists and has [R] rows and [C] columns. *)
Definition has_grid (R C : nat) (nm : string)
    (maps : gmap string ndarray) : Prop :=
  exists g, maps !! nm = Some g /\ grid_shaped R C g.

(** ... and its cell [(a, b)] reads [v]. *)
Definition cell_reads (R C : nat) (nm : string) (a b : nat) (v : option Z)
    (maps : gmap string ndarray) : Prop :=
  exists g, maps !! nm = Some g /\ grid_shaped R C g /\ grid_at g a b = v.

(** Chunk [(x, z)] aims no sample at the cell [(a, b)]. *)
Definition misses (R C : nat) (a b : nat) (ro : Z * Z) (x z : Z) : Prop :=
  (forall cx, 0 <= cx < 16 ->
     py_norm (Z.of_nat R) (- fst ro + x * 16 + cx) <> Some a) \/
  (forall cz, 0 <= cz < 16 ->
     py_norm (Z.of_nat C) (- snd ro + z * 16 + cz) <> Some b).

(** Slot [n] of the cell of chunk [(cx, cz)] holds [v]. *)
Definition slot_holds (cx cz : Z) (n : nat) (v : option CachedSection)
    (secs : sections_t) : Prop :=
  exists col cell,
    secs !! Z.to_nat cx = Some col /\ col !! Z.to_nat cz = Some cell /\
    length cell = 16%nat /\ cell !! n = Some v.

End Loader.

(** **** [__repr__] and the biome queries *)

Section Biomes.

Context {B : Type}.

(** The table [BIOMES] of [gdpc/lookup.py], from biome number to name; the
    module is imported by the three biome queries only, which are written
    against the table as given. *)
Variable BIOMES : gmap Z string.

(** The order in which Python iterates over [set(data)]: some enumeration
    of the values of [data].  Only [getPrimaryBiomeNear] depends on it. *)
Variable set_iter : list Z -> list Z.

(** The text is the four numbers of the constructor call again, written
    as a tuple. *)
Definition __repr__ (ws : WorldSlice_of B) : string :=
  let '(rx, rz, w, h) := rect ws in
  let '(x1, z1) := (rx, rz) in
  let '(x2, z2) := (rx + w, rz + h) in
  "WorldSlice(" +:+ fmt x1 +:+ ", " +:+ fmt z1 +:+ ", " +:+ fmt x2 +:+ ", "
    +:+ fmt z2 +:+ ")".

Definition biome_chunkID (ws : WorldSlice_of B) (x z : Z) : Z :=
  let '(rx, rz, _, _) := rect ws in
  let '(_, _, cxl, _) := chunkRect ws in
  (x - rx) / 16 + (z - rz) / 16 * cxl.

(** [self.nbtfile['Chunks'][chunkID]['Level']['Biomes']] *)
Definition chunk_biomes (ws : WorldSlice_of B) (x z : Z) : result (list Z) :=
  rbind (py_getitem (nbtfile ws) (biome_chunkID ws x z))
        (fun chunk => Return (Biomes chunk)).

(** [BIOMES[i]] *)
Definition biome_name (i : Z) : result string :=
  match BIOMES !! i with
  | Some name => Return name
  | None => Raise KeyError
  end.

Definition biome_index (x y z : Z) : Z :=
  let x := (x mod 16) / 4 in
  let z := (z mod 16) / 4 in
  let y := y / 4 in
  x + 4 * z + 16 * y.

Definition getBiomeAt (ws : WorldSlice_of B) (x y z : Z) : result string :=
  rbind (chunk_biomes ws x z) (fun data =>
  rbind (py_getitem data (biome_index x y z)) biome_name).

(** A list comprehension whose element expression may raise. *)
Fixpoint comprehension {X Y} (f : X -> result Y) (l : list X) : result (list Y) :=
  match l with
  | [] => Return []
  | a :: rest =>
      rbind (f a) (fun b => rbind (comprehension f rest) (fun bs => Return (b :: bs)))
  end.

(** [sorted(list(set(data)))] *)
Definition sorted_set (data : list Z) : list Z :=
  merge_sort Z.le (remove_dups data).

Definition getBiomesNear (ws : WorldSlice_of B) (x y z : Z) : result (list string) :=
  rbind (chunk_biomes ws x z) (fun data =>
  comprehension biome_name (sorted_set data)).

(** [data.count(v)] *)
Definition count (data : list Z) (v : Z) : nat :=
  length (filter (fun w => w = v) data).

(** [max(items, key=key)]: the first item whose key no other item exceeds;
    [ValueError] on an empty sequence. *)
Definition py_max_key (key : Z -> nat) (items : list Z) : result Z :=
  match items with
  | [] => Raise ValueError
  | a :: rest =>
      Return (fold_left (fun best v => if (key best <? key v)%nat then v else best)
                        rest a)
  end.

Definition getPrimaryBiomeNear (ws : WorldSlice_of B) (x y z : Z) : result string :=
  rbind (chunk_biomes ws x z) (fun data =>
  rbind (py_max_key (count data) (set_iter data)) biome_name).

End Biomes.

End worldLoader.

(** ** example.py *)

Module example.

(** [rectanglesOverlap(r1, r2)] on rectangles [(x, z, width, depth)]. *)
Definition rectanglesOverlap (r1 r2 : Z * Z * Z * Z) : bool :=
  let '(x1, z1, w1, d1) := r1 in
  let '(x2, z2, w2, d2) := r2 in
  if (x1 >=? x2 + w2) || (x1 + w1 <=? x2) || (z1 + d1 <=? z2) || (z1 >=? z2 + d2)
  then false
  else true.

(** [heightAt(x, z)]: [heightmap[(x - area[0], z - area[1])]] on a numpy
    array, each axis indexed like a list. *)
Definition heightAt (heightmap : list (list Z)) (area : Z * Z * Z * Z) (x z : Z)
  : result Z :=
  let '(ax, az, _, _) := area in
  rbind (py_getitem heightmap (x - ax)) (fun row => py_getitem row (z - az)).

End example.

(** *** The packed array behind [BitArray]

    Modelled from the spec: [gdpc/bitarray.py] is not part of the sources at
    hand.  Section 4.1 gives the decoding: with [entriesPerWord = 64 / b], entry
    [i] sits in word [i / entriesPerWord] at bit [(i mod entriesPerWord) * b]
    and is [b] bits wide; an index outside [0, n) is a [RangeError]; a word
    list too short for [n] entries is refused at construction with
    [MalformedPayload]. *)
Module PackedIntArray.

Record t : Type := mk {
  bitsPerEntry : Z;
  arraySize : Z;
  longArray : list Z
}.

Definition entriesPerWord (b : Z) : Z := 64 / b.

(** The number of words [n] entries of [b] bits need. *)
Definition wordsNeeded (b n : Z) : Z :=
  (n + entriesPerWord b - 1) / entriesPerWord b.

Definition new (b n : Z) (words : list Z) : result t :=
  if Z.of_nat (length words) <? wordsNeeded b n then Raise MalformedPayload
  else Return (mk b n words).

Definition decode (a : t) (i : Z) : result Z :=
  if (0 <=? i) && (i <? arraySize a) then
    let b := bitsPerEntry a in
    let wordIndex := i / entriesPerWord b in
    let bitOffset := (i mod entriesPerWord b) * b in
    match longArray a !! Z.to_nat wordIndex with
    | Some w => Return (Z.land (Z.shiftr w bitOffset) (Z.shiftl 1 b - 1))
    | None => Raise RangeError
    end
  else Raise RangeError.

Definition codec : worldLoader.Codec :=
  {| worldLoader.bitarray := t;
     worldLoader.BitArray := new;
     worldLoader.getAt := decode |}.

(** [encode b values]: the word list that holds [values], [64 / b] entries
    per word, low bits first. *)
Fixpoint pack_word (b : Z) (values : list Z) : Z :=
  match values with
  | [] => 0
  | v :: rest => Z.lor v (Z.shiftl (pack_word b rest) b)
  end.

Fixpoint encode_fuel (fuel : nat) (b : Z) (values : list Z) : list Z :=
  match fuel, values with
  | O, _ | _, [] => []
  | S f, _ =>
      let k := Z.to_nat (entriesPerWord b) in
      pack_word b (take k values) :: encode_fuel f b (drop k values)
  end.

Definition encode (b : Z) (values : list Z) : list Z :=
  encode_fuel (length values) b values.

End PackedIntArray.

(** ** Sample servers, objects and chunks *)

Section InterfaceSamples.

Import interfaceUtils.

(** A server that answers every request. *)
Definition always_up : nat -> reply := fun _ => Response "1".

(** A server that is never reachable. *)
Definition never_up : nat -> reply := fun _ => Throws ConnectionError.

(** A server that is unreachable for the first two requests. *)
Definition up_after_two : nat -> reply :=
  fun n => if (n <? 2)%nat then Throws ConnectionError else Response "1".

Definition buffered3 : state :=
  mkState (mkInterface (0, 0, 0) true 3 []) [].

Definition one_pending : state :=
  mkState (mkInterface (0, 0, 0) true 4096 [(1, 2, 3, "stone")]) [].

(** A server that is unreachable for the first six requests. *)
Definition up_after_six : nat -> reply :=
  fun n => if (n <? 6)%nat then Throws ConnectionError else Response "1".

Definition unbuffered : state := mkState (__init__ (0, 0, 0) false 4096) [].

(** A buffered object with offset (1, 0, 0) and room for 100 entries. *)
Definition roomy : state := mkState (mkInterface (1, 0, 0) true 100 []) [].

(** A buffered object that flushes on every call. *)
Definition eager : state := mkState (mkInterface (0, 0, 0) true 1 []) [].

(** A server that reports the build area from (10, 20) to (30, 50). *)
Definition area_up : nat -> area_reply :=
  fun _ => AreaResponse true "" (JsonArea 10 20 30 50).

Definition area_unset : nat -> area_reply :=
  fun _ => AreaResponse true "-1" JsonMinusOne.

Definition shifted : state := mkState (__init__ (4, 0, 5) false 4096) [].

(** A buffered object with two entries waiting, and one with none. *)
Definition two_pending : state :=
  mkState (mkInterface (0, 0, 0) true 4096
             [(1, 2, 3, "stone"); (4, 5, 6, "dirt")]) [].

Definition nothing_pending : state :=
  mkState (mkInterface (0, 0, 0) true 4096 []) [].

(** The module-level list with one entry waiting, nothing sent so far. *)
Definition legacy_one : deprecated.gstate :=
  deprecated.mkGstate [(1, 2, 3, "stone")] [].

End InterfaceSamples.

Section WorldSliceSamples.

Import worldLoader.
Local Existing Instance PackedIntArray.codec.

Abbreviation CachedSection := (CachedSection_of PackedIntArray.t).
Abbreviation WorldSlice := (WorldSlice_of PackedIntArray.t).

Definition stone : BlockCompound := mkBlock "minecraft:stone" [].

(** A section at height [y] filled with stone: one palette entry, 4 bits
    per entry, 256 words of zeros. *)
Definition stone_section (y : Z) : NbtSection :=
  mkSection y (Some [stone]) (Some (replicate 256 0)).

(** A section whose first entry is palette index 1, with a palette of one. *)
Definition corrupt_section : NbtSection :=
  mkSection 0 (Some [stone]) (Some (1 :: replicate 255 0)).

(** A section without block states. *)
Definition bare_section (y : Z) : NbtSection := mkSection y None None.

Definition stone_chunk : NbtChunk := mkChunk ∅ [stone_section 0] [].
Definition corrupt_chunk : NbtChunk := mkChunk ∅ [corrupt_section] [].
Definition partial_chunk : NbtChunk :=
  mkChunk ∅ [bare_section 0; stone_section 1] [].

Definition cached (s : NbtSection) : option CachedSection :=
  Some (mkCachedSection (default [] (Palette s))
          (PackedIntArray.mk 4 4096 (default [] (BlockStates s)))).

(** The slice for x, z in [0, 16) over [chunk], with the given column of
    sixteen section slots. *)
Definition one_chunk (chunk : NbtChunk) (cell : list (option CachedSection))
  : WorldSlice :=
  mkWorldSlice (0, 0, 16, 16) (0, 0, 1, 1) [] [chunk] ∅ [[cell]].

Definition stone_slice : WorldSlice :=
  one_chunk stone_chunk (cached (stone_section 0) :: replicate 15 None).

Definition corrupt_slice : WorldSlice :=
  one_chunk corrupt_chunk (cached corrupt_section :: replicate 15 None).

Definition partial_slice : WorldSlice :=
  one_chunk partial_chunk (None :: cached (stone_section 1) :: replicate 14 None).

(** A chunk whose height sample at column [cx] is [100 + cx], in every
    row [cz]. *)
Definition ramp_samples : list Z := (fun i => 100 + i mod 16) <$> seqZ 0 256.

Definition ramp_chunk : NbtChunk :=
  mkChunk {[ "MOTION_BLOCKING" := PackedIntArray.encode 9 ramp_samples ]} [] [].

(** The region x in [2, 18), z in [0, 1): sixteen blocks wide, starting two
    blocks into chunk 0. *)
Definition ramp_slice : result WorldSlice :=
  __init__ 2 0 18 1 (Some ["MOTION_BLOCKING"]) [ramp_chunk].

(** A chunk with three biome numbers, and a slice over it. *)
Definition biome_chunk : NbtChunk := mkChunk ∅ [] [4; 1; 4; 7; 4; 1].

Definition biome_slice : WorldSlice :=
  one_chunk biome_chunk (replicate 16 None).

Definition some_biomes : gmap Z string :=
  {[ 1 := "plains"; 4 := "forest"; 7 := "river" ]}.

End WorldSliceSamples.

(** * Properties of [Interface] *)

Section InterfaceFacts.

Import interfaceUtils.

Variable server : nat -> reply.

Lemma with_buffer_same (i : Interface) : with_buffer i (buffer i) = i.
Proof. by destruct i. Qed.

Lemma sendBlocks_from_unfold x y z r s :
  sendBlocks_from server x y z r s =
  let s1 := mkState (self s) (sent s ++ [flush_request x y z (self s)]) in
  match server (length (sent s)) with
  | Response text =>
      (Return (Some text), mkState (with_buffer (self s) []) (sent s1))
  | Throws ConnectionError =>
      match r with
      | S r' => sendBlocks_from server x y z r' s1
      | O => (Return None, s1)
      end
  | Throws e => (Raise e, s1)
  end.
Proof.
  destruct r; simpl; unfold except_ConnectionError, bind, requests_put;
    destruct (server (length (sent s))) as [text|[]]; reflexivity.
Qed.

(** What a flush with [r] retries left does, in full: it sends the same
    request [k] times, [k] between 1 and [r + 1]; all attempts but the last
    met a connection error; the reply to the last one decides the outcome. *)
Lemma sendBlocks_from_spec x y z r s :
  exists (k : nat) res s',
    sendBlocks_from server x y z r s = (res, s') /\
    (1 <= k <= S r)%nat /\
    sent s' = sent s ++ replicate k (flush_request x y z (self s)) /\
    (forall j, (j < k - 1)%nat ->
               server (length (sent s) + j)%nat = Throws ConnectionError) /\
    match server (length (sent s) + (k - 1))%nat with
    | Response text =>
        res = Return (Some text) /\ self s' = with_buffer (self s) []
    | Throws ConnectionError =>
        k = S r /\ res = Return None /\ self s' = self s
    | Throws e => res = Raise e /\ self s' = self s
    end.
Proof.
  revert s. induction r as [|r IH]; intros s;
    rewrite sendBlocks_from_unfold; cbn zeta;
    destruct (server (length (sent s))) as [text|e] eqn:Hsrv.
  - exists 1%nat; eexists _, _; split; [reflexivity|].
    simpl. rewrite Nat.add_0_r, Hsrv. repeat split; auto; lia.
  - exists 1%nat. destruct e; eexists _, _; (split; [reflexivity|]);
      simpl; rewrite Nat.add_0_r, Hsrv; repeat split; auto; lia.
  - exists 1%nat; eexists _, _; split; [reflexivity|].
    simpl. rewrite Nat.add_0_r, Hsrv. repeat split; auto; lia.
  - destruct (decide (e = ConnectionError)) as [->|Hne].
    + destruct (IH (mkState (self s) (sent s ++ [flush_request x y z (self s)])))
        as (k & res & s' & Hrun & Hk & Hsent & Hfail & Hlast).
      simpl in *. rewrite length_app in Hfail, Hlast. simpl in *.
      exists (S k), res, s'. split; [exact Hrun|].
      split; [lia|]. split.
      { rewrite Hsent, <- app_assoc. reflexivity. }
      split.
      { intros [|j] Hj.
        - rewrite Nat.add_0_r. exact Hsrv.
        - replace (length (sent s) + S j)%nat
            with (length (sent s) + 1 + j)%nat by lia.
          apply Hfail. lia. }
      replace (length (sent s) + (S k - 1))%nat
        with (length (sent s) + 1 + (k - 1))%nat by lia.
      destruct (server (length (sent s) + 1 + (k - 1))%nat) as [t|[]];
        intuition (try lia; auto).
    + exists 1%nat.
      destruct e; try congruence; eexists _, _; (split; [reflexivity|]);
        simpl; rewrite Nat.add_0_r, Hsrv; repeat split; auto; lia.
Qed.

Lemma sendBlocks_from_all_fail x y z r s :
  (forall j, (j <= r)%nat ->
             server (length (sent s) + j)%nat = Throws ConnectionError) ->
  sendBlocks_from server x y z r s =
  (Return None,
   mkState (self s) (sent s ++ replicate (S r) (flush_request x y z (self s)))).
Proof.
  revert s. induction r as [|r IH]; intros s Hfail;
    rewrite sendBlocks_from_unfold; cbn zeta;
    specialize (Hfail 0%nat ltac:(lia)) as H0;
    rewrite Nat.add_0_r in H0; rewrite H0.
  - reflexivity.
  - rewrite IH; simpl.
    + by rewrite <- app_assoc.
    + intros j Hj. rewrite length_app. simpl.
      replace (length (sent s) + 1 + j)%nat
        with (length (sent s) + S j)%nat by lia.
      apply Hfail. lia.
Qed.

Lemma to_global_with_buffer i l c :
  to_global (with_buffer i l) c = to_global i c.
Proof. reflexivity. Qed.

Lemma for_each_app {A} (l1 l2 : list A) (body : A -> M unit) s :
  for_each (l1 ++ l2) body s = (for_each l1 body ;;; for_each l2 body) s.
Proof.
  revert s. induction l1 as [|a l1 IH]; intros s; simpl.
  - reflexivity.
  - unfold bind. unfold bind in IH.
    destruct (body a s) as [[[]|e] s1]; [|reflexivity].
    apply IH.
Qed.

(** One buffered [setBlock]: the entry is appended in global coordinates,
    then the length is compared with the limit. *)
Lemma setBlock_buffered x y z blk s :
  buffering (self s) = true ->
  setBlock server x y z blk s =
  let s1 := mkState (with_buffer (self s)
                       (buffer (self s) ++ [to_global (self s) (x, y, z, blk)]))
                    (sent s) in
  if Z.of_nat (length (buffer (self s))) + 1 >=? bufferlimit (self s)
  then (sendBlocks_default server ;;; ret tt) s1
  else (Return tt, s1).
Proof.
  intros Hb. unfold setBlock. rewrite Hb.
  unfold placeBlockBatched, local2global, to_global, bind.
  destruct s as [[[[ox oy] oz] b lim buf] log]; simpl in *.
  rewrite length_app, Nat2Z.inj_add. simpl length.
  change (Z.of_nat 1) with 1.
  destruct (Z.of_nat (length buf) + 1 >=? lim); reflexivity.
Qed.

Lemma setBlocks_below calls : forall s,
  buffering (self s) = true ->
  Z.of_nat (length (buffer (self s)) + length calls) < bufferlimit (self s) ->
  setBlocks server calls s =
  (Return tt,
   mkState (with_buffer (self s)
              (buffer (self s) ++ (to_global (self s) <$> calls)))
           (sent s)).
Proof.
  induction calls as [|[[[x y] z] blk] calls IH]; intros s Hb Hlim.
  - simpl. rewrite app_nil_r, with_buffer_same. by destruct s.
  - unfold setBlocks in *. simpl. unfold bind at 1.
    rewrite setBlock_buffered by done. cbn zeta.
    simpl in Hlim.
    destruct (Z.geb_spec (Z.of_nat (length (buffer (self s))) + 1)
                (bufferlimit (self s))) as [Hge|Hlt]; [lia|].
    rewrite IH; simpl; [|done|rewrite length_app; simpl; lia].
    unfold with_buffer; simpl. by rewrite <- app_assoc.
Qed.

(** One unbuffered [setBlock]: exactly one request, for the coordinates
    shifted by the offset, whatever the server replies. *)
Lemma setBlock_direct_sent x y z blk s :
  buffering (self s) = false ->
  let '(ox, oy, oz) := offset (self s) in
  snd (setBlock server x y z blk s) =
  mkState (self s) (sent s ++ [PUT (blocks_url (x + ox) (y + oy) (z + oz)) blk]).
Proof.
  intros Hb. destruct s as [[[[ox oy] oz] b lim buf] log]; simpl in *.
  subst b.
  unfold setBlock, placeBlock, bind, local2global, except_ConnectionError,
    requests_put; simpl.
  destruct (server (length log)) as [t|[]]; reflexivity.
Qed.

Lemma for_each_ext {A} (l : list A) (f g : A -> M unit) :
  (forall a s, f a s = g a s) -> forall s, for_each l f s = for_each l g s.
Proof.
  intros Hfg. induction l as [|a l IH]; intros s; simpl; [reflexivity|].
  unfold bind. rewrite Hfg. destruct (g a s) as [[[]|e] s1]; [apply IH|reflexivity].
Qed.

Lemma for_each_fmap {A B} (h : A -> B) (l : list A) (body : B -> M unit) s :
  for_each (h <$> l) body s = for_each l (fun a => body (h a)) s.
Proof.
  revert s. induction l as [|a l IH]; intros s; simpl; [reflexivity|].
  unfold bind. destruct (body (h a) s) as [[[]|e] s1]; [apply IH|reflexivity].
Qed.

Lemma for_each_mbind {A B} (f : A -> list B) (l : list A) (body : B -> M unit) s :
  for_each (l ≫= f) body s = for_each l (fun a => for_each (f a) body) s.
Proof.
  revert s. induction l as [|a l IH]; intros s; [reflexivity|].
  change ((a :: l) ≫= f) with (f a ++ (l ≫= f)).
  rewrite for_each_app. simpl. unfold bind.
  destruct (for_each (f a) body s) as [[[]|e] s1]; [apply IH|reflexivity].
Qed.

(** The three nested loops of [fill] visit [cuboid] in order. *)
Lemma nested_loops_cuboid xlo xhi ylo yhi zlo zhi (body : Z -> Z -> Z -> M unit) s :
  for_each (range xlo (xhi + 1)) (fun x =>
    for_each (range ylo (yhi + 1)) (fun y =>
      for_each (range zlo (zhi + 1)) (fun z => body x y z))) s =
  for_each (cuboid xlo xhi ylo yhi zlo zhi) (fun '(x, y, z) => body x y z) s.
Proof.
  unfold cuboid. rewrite for_each_mbind.
  apply for_each_ext. intros x s1. rewrite for_each_mbind.
  apply for_each_ext. intros y s2. by rewrite for_each_fmap.
Qed.

Lemma length_range lo hi : Z.of_nat (length (range lo hi)) = Z.max 0 (hi - lo).
Proof. unfold range. rewrite length_seqZ. lia. Qed.

(** [fill] makes as many calls as the cuboid has points. *)
Lemma length_cuboid xlo xhi ylo yhi zlo zhi :
  xlo <= xhi -> ylo <= yhi -> zlo <= zhi ->
  Z.of_nat (length (cuboid xlo xhi ylo yhi zlo zhi)) =
  (xhi - xlo + 1) * (yhi - ylo + 1) * (zhi - zlo + 1).
Proof.
  intros Hx Hy Hz. unfold cuboid.
  assert (Hin : forall (l : list Z) (n : nat) (f : Z -> list (Z * Z * Z)),
             (forall a, length (f a) = n) ->
             length (l ≫= f) = (length l * n)%nat).
  { intros l n f Hf. induction l as [|a l IH]; [reflexivity|].
    change ((a :: l) ≫= f) with (f a ++ (l ≫= f)).
    rewrite length_app, IH, Hf. simpl. lia. }
  rewrite (Hin _ (length (range ylo (yhi + 1)) * length (range zlo (zhi + 1)))%nat).
  - rewrite !Nat2Z.inj_mul, !length_range. lia.
  - intros x. rewrite (Hin _ (length (range zlo (zhi + 1)))); [reflexivity|].
    intros y. by rewrite length_fmap.
Qed.

(** One unbuffered [setBlock] over a transport that fails only
    transiently: it returns, and one request has gone out. *)
Lemma setBlock_direct x y z blk s :
  transient_only server ->
  buffering (self s) = false ->
  setBlock server x y z blk s =
  (Return tt,
   mkState (self s)
     (sent s ++ [PUT (blocks_url (x + (offset (self s)).1.1)
                                 (y + (offset (self s)).1.2)
                                 (z + (offset (self s)).2)) blk])).
Proof.
  intros Hsrv Hb. destruct s as [[[[ox oy] oz] b lim buf] log]; simpl in *.
  subst b.
  unfold setBlock, placeBlock, bind, local2global, except_ConnectionError,
    requests_put; simpl.
  destruct (server (length log)) as [t|e] eqn:E; [reflexivity|].
  rewrite (Hsrv _ _ E). reflexivity.
Qed.

Lemma setBlock_direct_run (coords : list (Z * Z * Z)) blk : forall s,
  transient_only server ->
  buffering (self s) = false ->
  for_each coords (fun '(x, y, z) => setBlock server x y z blk) s =
  (Return tt,
   mkState (self s)
     (sent s ++ ((fun '(x, y, z) =>
                    PUT (blocks_url (x + (offset (self s)).1.1)
                                    (y + (offset (self s)).1.2)
                                    (z + (offset (self s)).2)) blk) <$> coords))).
Proof.
  intros s Hsrv. revert s.
  induction coords as [|[[x y] z] coords IH]; intros s Hb; simpl.
  - rewrite app_nil_r. by destruct s.
  - unfold bind. rewrite setBlock_direct by done.
    rewrite IH by done. simpl. by rewrite <- app_assoc.
Qed.

(** What [fill] sends in unbuffered mode, for every pair of corners and
    every offset [(ox, oy, oz)]: one PUT per point [(gx, gy, gz)] of the
    cuboid spanned by the two corners after [local2global], addressed to
    [(gx + ox, gy + oy, gz + oz)].  The points already carry the offset, so
    the requests carry it twice. *)
Lemma fill_direct x1 y1 z1 x2 y2 z2 blk s :
  transient_only server ->
  buffering (self s) = false ->
  let '(ox, oy, oz) := offset (self s) in
  fill server x1 y1 z1 x2 y2 z2 blk s =
  (Return tt,
   mkState (self s)
     (sent s ++
      ((fun '(gx, gy, gz) => PUT (blocks_url (gx + ox) (gy + oy) (gz + oz)) blk)
         <$> cuboid (Z.min (x1 + ox) (x2 + ox)) (Z.max (x1 + ox) (x2 + ox))
                    (Z.min (y1 + oy) (y2 + oy)) (Z.max (y1 + oy) (y2 + oy))
                    (Z.min (z1 + oz) (z2 + oz)) (Z.max (z1 + oz) (z2 + oz))))).
Proof.
  intros Hsrv Hb.
  destruct (offset (self s)) as [[ox oy] oz] eqn:Hoff.
  unfold fill, local2global. rewrite Hoff. simpl. unfold bind at 1 2. simpl.
  rewrite nested_loops_cuboid.
  rewrite setBlock_direct_run by done. rewrite Hoff. reflexivity.
Qed.

(** C10. [Interface.__init__] ignores its [buffering] and [bufferlimit]
    arguments: whatever is passed, the new object is unbuffered, its limit
    is 4096 and nothing is pending; its first [setBlock] therefore goes
    straight to the server. *)
Theorem init_ignores_buffering_arguments
    (off : Z * Z * Z) (buffering_arg : bool) (bufferlimit_arg : Z) :
  let i := __init__ off buffering_arg bufferlimit_arg in
  offset i = off /\ buffering i = false /\ bufferlimit i = 4096 /\
  buffer i = [] /\
  forall x y z blk,
    let '(ox, oy, oz) := off in
    snd (setBlock server x y z blk (mkState i [])) =
    mkState i [PUT (blocks_url (x + ox) (y + oy) (z + oz)) blk].
Proof.
  cbn zeta. repeat split.
  intros x y z blk.
  pose proof (setBlock_direct_sent x y z blk
                (mkState (__init__ off buffering_arg bufferlimit_arg) [])
                eq_refl) as H.
  simpl in H. destruct off as [[ox oy] oz]. exact H.
Qed.

(** C1. Buffered mode, any run of [setBlock] calls.  While the pending
    count stays below the limit nothing is sent and the entries pile up in
    call order; the call that brings the count to the limit runs one flush
    on the whole pending sequence; when the server answers that flush, the
    traffic is a single PUT whose body lists every pending entry in
    insertion order, and nothing is pending afterwards. *)
Theorem buffered_setBlock_flushes_at_limit
    (s : state) (calls : list placement) (c : placement) :
  buffering (self s) = true ->
  Z.of_nat (length (buffer (self s)) + length calls) + 1 = bufferlimit (self s) ->
  let pending := buffer (self s) ++ (to_global (self s) <$> calls ++ [c]) in
  (forall k : nat,
     setBlocks server (take k calls) s =
     (Return tt,
      mkState (with_buffer (self s)
                 (buffer (self s) ++ (to_global (self s) <$> take k calls)))
              (sent s))) /\
  setBlocks server (calls ++ [c]) s =
    (sendBlocks_default server ;;; ret tt)
      (mkState (with_buffer (self s) pending) (sent s)) /\
  (forall text,
     server (length (sent s)) = Response text ->
     setBlocks server (calls ++ [c]) s =
     (Return tt,
      mkState (with_buffer (self s) [])
              (sent s ++ [PUT (blocks_url 0 0 0) (body_of pending)]))).
Proof.
  intros Hb Hlim pending.
  assert (Hrun : setBlocks server (calls ++ [c]) s =
                 (sendBlocks_default server ;;; ret tt)
                   (mkState (with_buffer (self s) pending) (sent s))).
  { unfold setBlocks. rewrite for_each_app. unfold bind at 1.
    fold (setBlocks server calls). rewrite setBlocks_below by (done || lia).
    destruct c as [[[x y] z] blk]. simpl for_each. unfold bind at 1.
    rewrite setBlock_buffered by done. cbn zeta. simpl buffer. simpl bufferlimit.
    destruct (Z.geb_spec (Z.of_nat (length (buffer (self s) ++
                (to_global (self s) <$> calls))) + 1) (bufferlimit (self s)))
      as [_|Hlt].
    2:{ rewrite length_app, length_fmap in Hlt. lia. }
    unfold pending. rewrite fmap_app, app_assoc. simpl.
    unfold bind, ret.
    destruct (sendBlocks_default server _) as [[?|?] ?]; reflexivity. }
  split; [|split; [exact Hrun|]].
  - intros k. apply setBlocks_below; [done|].
    rewrite length_take. lia.
  - intros text Hsrv. rewrite Hrun.
    unfold bind, sendBlocks_default, sendBlocks.
    rewrite sendBlocks_from_unfold. simpl. rewrite Hsrv. reflexivity.
Qed.

(** C2. A flush with [retries=5] whose first two attempts meet a
    connection error and whose third is answered: it returns the answer,
    the server has seen exactly three requests, all three identical, and
    nothing is pending afterwards. *)
Theorem flush_succeeds_on_third_attempt (x y z : Z) (s : state) (text : string) :
  server (length (sent s)) = Throws ConnectionError ->
  server (length (sent s) + 1)%nat = Throws ConnectionError ->
  server (length (sent s) + 2)%nat = Response text ->
  sendBlocks server x y z 5 s =
  (Return (Some text),
   mkState (with_buffer (self s) [])
           (sent s ++ replicate 3 (flush_request x y z (self s)))).
Proof.
  intros H0 H1 H2. unfold sendBlocks.
  change (Z.to_nat 5) with 5%nat.
  rewrite sendBlocks_from_unfold. cbn zeta. rewrite H0.
  rewrite sendBlocks_from_unfold. cbn zeta. simpl sent. simpl self.
  rewrite length_app. simpl length. rewrite H1.
  rewrite sendBlocks_from_unfold. cbn zeta. simpl sent. simpl self.
  rewrite !length_app. simpl length.
  replace (length (sent s) + 1 + 1)%nat with (length (sent s) + 2)%nat by lia.
  rewrite H2. rewrite <- !app_assoc. reflexivity.
Qed.

(** C3, as the code has it.  When every attempt of a flush meets a
    connection error, [sendBlocks] gives up after [retries + 1] identical
    requests and returns [None]; no exception reaches the caller, and the
    pending entries stay in the buffer. *)
Theorem flush_exhausted_returns_None (x y z retries : Z) (s : state) :
  (forall j, (j <= Z.to_nat retries)%nat ->
             server (length (sent s) + j)%nat = Throws ConnectionError) ->
  sendBlocks server x y z retries s =
  (Return None,
   mkState (self s)
           (sent s ++ replicate (S (Z.to_nat retries))
                                (flush_request x y z (self s)))).
Proof. intros Hfail. unfold sendBlocks. by apply sendBlocks_from_all_fail. Qed.

(** [join] is [String.concat] of the standard library. *)
Lemma join_concat (sep : string) (parts : list string) :
  join sep parts = String.concat sep parts.
Proof.
  induction parts as [|p [|q rest] IH]; [reflexivity|reflexivity|].
  change (join sep (p :: q :: rest)) with (p +:+ sep +:+ join sep (q :: rest)).
  rewrite IH. reflexivity.
Qed.

(** The text of a default flush request, spelled out. *)
Lemma flush_request_text (i : Interface) :
  flush_request 0 0 0 i =
  PUT "http://localhost:9000/blocks?x=0&y=0&z=0"
    (String.concat (String (Ascii.ascii_of_nat 10) "")
       ((fun bp : placement =>
           let '(x, y, z, blk) := bp in
           pretty x +:+ " " +:+ pretty y +:+ " " +:+ pretty z +:+ " " +:+ blk)
          <$> buffer i)).
Proof.
  unfold flush_request, body_of. rewrite join_concat. reflexivity.
Qed.

(** C8. Switching buffering off, through the setter or through
    [toggleBuffer], sets the mode to direct and runs one flush: between one
    and six identical PUT requests to [blocks?x=0&y=0&z=0], each carrying
    every pending entry, in insertion order, as a line [x y z block], the
    lines separated by a line feed (an empty body when nothing is pending).
    Every attempt but the last met a connection error.  When the last
    attempt was answered the buffer is empty; when it met a connection error
    it was the sixth, no error comes out, and every pending entry is still
    in the buffer although the mode is already direct; any other exception
    of the transport comes out, again with the buffer kept.  Offset and
    limit are untouched. *)
Theorem leaving_buffered_mode_flushes (s : state) :
  let line := fun bp : placement =>
    let '(x, y, z, blk) := bp in
    pretty x +:+ " " +:+ pretty y +:+ " " +:+ pretty z +:+ " " +:+ blk in
  let put := PUT "http://localhost:9000/blocks?x=0&y=0&z=0"
               (String.concat (String (Ascii.ascii_of_nat 10) "") (line <$> buffer (self s))) in
  let left_with := fun pending =>
    mkInterface (offset (self s)) false (bufferlimit (self s)) pending in
  exists (k : nat) res s',
    Buffering_set server false s = (res, s') /\
    (1 <= k <= 6)%nat /\
    sent s' = sent s ++ replicate k put /\
    (forall j, (j < k - 1)%nat ->
       server (length (sent s) + j)%nat = Throws ConnectionError) /\
    match server (length (sent s) + (k - 1))%nat with
    | Response _ => res = Return tt /\ self s' = left_with []
    | Throws ConnectionError =>
        k = 6%nat /\ res = Return tt /\ self s' = left_with (buffer (self s))
    | Throws e => res = Raise e /\ self s' = left_with (buffer (self s))
    end /\
    (buffering (self s) = true ->
     toggleBuffer server s =
     (match res with Return _ => Return false | Raise e => Raise e end, s')).
Proof.
  intros line put left_with.
  destruct (sendBlocks_from_spec 0 0 0 5
              (mkState (with_buffering (self s) false) (sent s)))
    as (k & res & s' & Hrun & Hk & Hsent & Hfail & Hlast).
  cbn [self sent] in Hsent, Hfail, Hlast.
  rewrite flush_request_text in Hsent.
  change (buffer (with_buffering (self s) false)) with (buffer (self s)) in Hsent.
  fold line in Hsent. fold put in Hsent.
  assert (Hset : Buffering_set server false s =
                 (match res with Return _ => Return tt | Raise e => Raise e end, s')).
  { unfold Buffering_set, bind, set_buffering, sendBlocks_default, sendBlocks.
    cbn [buffering self with_buffering].
    change (Z.to_nat 5) with 5%nat. rewrite Hrun.
    destruct res; reflexivity. }
  exists k, (match res with Return _ => Return tt | Raise e => Raise e end), s'.
  split; [exact Hset|]. split; [lia|]. split; [exact Hsent|].
  split; [exact Hfail|].
  assert (Hmode : buffering (self s') = false).
  { destruct (server (length (sent s) + (k - 1))%nat) as [t|[]];
      destruct Hlast as (? & Hself); try destruct Hself as (? & Hself);
      rewrite Hself; reflexivity. }
  split.
  - destruct (server (length (sent s) + (k - 1))%nat) as [t|[]];
      destruct Hlast as (Hres & Hself); try destruct Hself as (Hres' & Hself);
      subst; rewrite Hself; repeat split; reflexivity.
  - intros Hb. unfold toggleBuffer, bind at 1, Buffering at 1, ret at 1.
    rewrite Hb. simpl negb. unfold bind. rewrite Hset.
    destruct res; [|reflexivity].
    unfold Buffering, ret. rewrite Hmode. reflexivity.
Qed.

End InterfaceFacts.

(** ** Concrete runs of [Interface] *)

Section InterfaceRuns.

Import interfaceUtils.

(** Three buffered calls with [bufferlimit = 3]: one PUT, three lines. *)
Lemma buffered_limit3_run :
  buffering (self buffered3) = true /\
  setBlocks always_up [(1, 2, 3, "stone"); (4, 5, 6, "dirt"); (7, 8, 9, "sand")]
    buffered3 =
  (Return tt,
   mkState (mkInterface (0, 0, 0) true 3 [])
     [PUT "http://localhost:9000/blocks?x=0&y=0&z=0"
          ("1 2 3 stone" +:+ newline +:+ "4 5 6 dirt" +:+ newline +:+ "7 8 9 sand")]).
Proof.
  split; [reflexivity|].
  exact (proj2 (proj2 (buffered_setBlock_flushes_at_limit always_up buffered3
                         [(1, 2, 3, "stone"); (4, 5, 6, "dirt")] (7, 8, 9, "sand")
                         eq_refl eq_refl)) "1" eq_refl).
Defined.

Lemma flush_third_attempt_run :
  up_after_two 0%nat = Throws ConnectionError /\
  up_after_two 1%nat = Throws ConnectionError /\
  up_after_two 2%nat = Response "1" /\
  sendBlocks up_after_two 0 0 0 5 one_pending =
  (Return (Some "1"),
   mkState (mkInterface (0, 0, 0) true 4096 [])
     (replicate 3 (PUT "http://localhost:9000/blocks?x=0&y=0&z=0" "1 2 3 stone"))).
Proof.
  do 3 (split; [reflexivity|]).
  exact (flush_succeeds_on_third_attempt up_after_two 0 0 0 one_pending "1"
           eq_refl eq_refl eq_refl).
Defined.

Lemma flush_exhausted_run :
  (forall j, (j <= Z.to_nat 5)%nat ->
             never_up (length (sent one_pending) + j)%nat = Throws ConnectionError) /\
  sendBlocks never_up 0 0 0 5 one_pending =
  (Return None,
   mkState (self one_pending)
     (replicate 6 (PUT "http://localhost:9000/blocks?x=0&y=0&z=0" "1 2 3 stone"))).
Proof.
  split; [reflexivity|].
  exact (flush_exhausted_returns_None never_up 0 0 0 5 one_pending
           (fun _ _ => eq_refl)).
Defined.

(** C3 as stated fails: with the server unreachable throughout, the flush
    comes back to its caller with the value [None], not with an error. *)
Lemma flush_exhausted_is_silent :
  (forall n, never_up n = Throws ConnectionError) /\
  fst (sendBlocks never_up 0 0 0 5 one_pending) = Return None /\
  is_error (fst (sendBlocks never_up 0 0 0 5 one_pending)) = false /\
  buffer (self (snd (sendBlocks never_up 0 0 0 5 one_pending))) =
    [(1, 2, 3, "stone")].
Proof. repeat split. Qed.

(** C8 at two concrete objects, over a server that answers at once.  With
    the entries (1, 2, 3, stone) and (4, 5, 6, dirt) waiting, switching
    buffering off sends exactly one request, whose body is the two lines
    [1 2 3 stone] and [4 5 6 dirt], and leaves the buffer empty; with
    nothing waiting it sends one request with an empty body and raises
    nothing. *)
Lemma leaving_buffered_mode_run :
  (exists s',
     Buffering_set always_up false two_pending = (Return tt, s') /\
     toggleBuffer always_up two_pending = (Return false, s') /\
     sent s' =
       [PUT "http://localhost:9000/blocks?x=0&y=0&z=0"
            ("1 2 3 stone" +:+ String (Ascii.ascii_of_nat 10) "4 5 6 dirt")] /\
     self s' = mkInterface (0, 0, 0) false 4096 []) /\
  (exists s',
     Buffering_set always_up false nothing_pending = (Return tt, s') /\
     toggleBuffer always_up nothing_pending = (Return false, s') /\
     sent s' = [PUT "http://localhost:9000/blocks?x=0&y=0&z=0" ""] /\
     self s' = mkInterface (0, 0, 0) false 4096 []).
Proof.
  split.
  - destruct (leaving_buffered_mode_flushes always_up two_pending)
      as (k & res & s' & Hrun & Hk & Hsent & Hfail & (Hres & Hself) & Htog).
    assert (k = 1%nat) as ->.
    { destruct k as [|[|k]]; [lia|reflexivity|].
      discriminate (Hfail 0%nat ltac:(lia)). }
    subst res. exists s'.
    split; [exact Hrun|]. split; [exact (Htog eq_refl)|].
    split; [exact Hsent|exact Hself].
  - destruct (leaving_buffered_mode_flushes always_up nothing_pending)
      as (k & res & s' & Hrun & Hk & Hsent & Hfail & (Hres & Hself) & Htog).
    assert (k = 1%nat) as ->.
    { destruct k as [|[|k]]; [lia|reflexivity|].
      discriminate (Hfail 0%nat ltac:(lia)). }
    subst res. exists s'.
    split; [exact Hrun|]. split; [exact (Htog eq_refl)|].
    split; [exact Hsent|exact Hself].
Defined.

(** C8 as stated fails: a pending write can be left behind by the mode
    change.  The server is unreachable for six requests and answers from
    the seventh on.  [toggleBuffer] on an object with (1, 2, 3, stone)
    waiting returns [False]: the object is in direct mode, all six attempts
    of the flush went unanswered, and the entry is still in the buffer.  The
    next [setBlock] goes out on its own and is answered, and the entry from
    before the switch has still not been delivered. *)
Lemma leaving_buffered_mode_strands_entry :
  let flush := PUT "http://localhost:9000/blocks?x=0&y=0&z=0" "1 2 3 stone" in
  let stranded :=
    mkState (mkInterface (0, 0, 0) false 4096 [(1, 2, 3, "stone")])
            (replicate 6 flush) in
  up_after_six <$> seq 0 7 =
    replicate 6 (Throws ConnectionError) ++ [Response "1"] /\
  buffering (self one_pending) = true /\
  buffer (self one_pending) = [(1, 2, 3, "stone")] /\
  toggleBuffer up_after_six one_pending = (Return false, stranded) /\
  Buffering_set up_after_six false one_pending = (Return tt, stranded) /\
  setBlock up_after_six 4 5 6 "dirt" stranded =
    (Return tt,
     mkState (mkInterface (0, 0, 0) false 4096 [(1, 2, 3, "stone")])
       (replicate 6 flush ++
        [PUT "http://localhost:9000/blocks?x=4&y=5&z=6" "dirt"])).
Proof. cbv zeta. do 5 (split; [reflexivity|]). reflexivity. Qed.

(** C6 at a concrete input.  With offset (10, 20, 30), unbuffered,
    [fill(0, 0, 0, 1, 0, 0, "stone")] writes two blocks, as many as the
    cuboid has cells, but at x = 20 and 21, y = 40, z = 60: the offset has
    been added by [fill] and again by [placeBlock]. *)
Lemma fill_adds_offset_twice :
  fill always_up 0 0 0 1 0 0 "stone"
    (mkState (__init__ (10, 20, 30) false 4096) []) =
  (Return tt,
   mkState (__init__ (10, 20, 30) false 4096)
     [PUT "http://localhost:9000/blocks?x=20&y=40&z=60" "stone";
      PUT "http://localhost:9000/blocks?x=21&y=40&z=60" "stone"]).
Proof. reflexivity. Qed.

End InterfaceRuns.

(** * Properties of [WorldSlice] *)

Section IndexFacts.

Lemma py_norm_Some_lt (len i : Z) (n : nat) :
  py_norm len i = Some n -> Z.of_nat n < len.
Proof.
  unfold py_norm. intros H.
  destruct ((0 <=? i) && (i <? len)) eqn:E1.
  - apply andb_prop in E1 as [? ?]. injection H as <-. lia.
  - destruct ((- len <=? i) && (i <? 0)) eqn:E2; [|discriminate].
    apply andb_prop in E2 as [? ?]. injection H as <-. lia.
Qed.

Lemma py_norm_in_range (len i : Z) :
  0 <= i < len -> py_norm len i = Some (Z.to_nat i).
Proof.
  intros [? ?]. unfold py_norm.
  replace (0 <=? i) with true by lia. replace (i <? len) with true by lia.
  reflexivity.
Qed.

Lemma py_norm_Some_range (len i : Z) (n : nat) :
  py_norm len i = Some n -> - len <= i < len.
Proof.
  unfold py_norm. intros H.
  destruct ((0 <=? i) && (i <? len)) eqn:E1.
  - apply andb_prop in E1 as [? ?]. lia.
  - destruct ((- len <=? i) && (i <? 0)) eqn:E2; [|discriminate].
    apply andb_prop in E2 as [? ?]. lia.
Qed.

Lemma py_norm_Some_nonneg (len i : Z) (n : nat) :
  py_norm len i = Some n -> 0 <= i -> n = Z.to_nat i.
Proof.
  unfold py_norm. intros H Hi.
  destruct ((0 <=? i) && (i <? len)) eqn:E1; [congruence|].
  destruct ((- len <=? i) && (i <? 0)) eqn:E2; [|discriminate].
  apply andb_prop in E2 as [? ?]. lia.
Qed.

(** Outside [-len, len) there is no such item. *)
Lemma py_norm_outside (len i : Z) :
  len <= i \/ i < - len -> py_norm len i = None.
Proof.
  intros H. unfold py_norm.
  destruct ((0 <=? i) && (i <? len)) eqn:E1.
  { apply andb_prop in E1 as [? ?]. lia. }
  destruct ((- len <=? i) && (i <? 0)) eqn:E2; [|reflexivity].
  apply andb_prop in E2 as [? ?]. lia.
Qed.

Lemma py_getitem_outside {A} (l : list A) (i : Z) :
  Z.of_nat (length l) <= i \/ i < - Z.of_nat (length l) ->
  py_getitem l i = Raise IndexError.
Proof. intros H. unfold py_getitem. by rewrite py_norm_outside. Qed.

Lemma py_getitem_Return {A} (l : list A) (i : Z) (a : A) :
  py_getitem l i = Return a ->
  exists n, py_norm (Z.of_nat (length l)) i = Some n /\ l !! n = Some a.
Proof.
  unfold py_getitem. destruct (py_norm _ i) as [n|]; [|discriminate].
  destruct (l !! n) as [a'|] eqn:E; [|discriminate].
  intros [= <-]. eauto.
Qed.

Lemma py_getitem_Raise {A} (l : list A) (i : Z) (e : exn) :
  py_getitem l i = Raise e -> e = IndexError.
Proof.
  unfold py_getitem. destruct (py_norm _ i) as [n|]; [|congruence].
  destruct (l !! n); congruence.
Qed.

Lemma py_getitem_in_range {A} (l : list A) (i : Z) (a : A) :
  0 <= i -> l !! Z.to_nat i = Some a -> py_getitem l i = Return a.
Proof.
  intros Hi Hl. unfold py_getitem.
  rewrite py_norm_in_range.
  - by rewrite Hl.
  - apply lookup_lt_Some in Hl. lia.
Qed.

End IndexFacts.

Section LoaderFacts.

Import worldLoader.
Context `{codec : Codec}.

Abbreviation CachedSection := (CachedSection_of bitarray).
Abbreviation WorldSlice := (WorldSlice_of bitarray).
Abbreviation sections_t := (list (list (list (option CachedSection)))).

Lemma foldM_inv {A S} (P : S -> Prop) (f : S -> A -> result S) (l : list A) :
  (forall s a s', a ∈ l -> P s -> f s a = Return s' -> P s') ->
  forall s s', P s -> foldM f l s = Return s' -> P s'.
Proof.
  induction l as [|a l IH]; intros Hstep s s' Hs Hrun; simpl in Hrun.
  - by injection Hrun as <-.
  - destruct (f s a) as [s1|e] eqn:E; simpl in Hrun; [|discriminate].
    eapply IH; [|eapply Hstep; [|exact Hs|exact E]|exact Hrun].
    + intros s0 a0 s0' Hin. apply Hstep. by right.
    + by left.
Qed.

Lemma elem_of_range (lo hi i : Z) : i ∈ range lo hi <-> lo <= i < hi.
Proof. unfold range. rewrite elem_of_seqZ. lia. Qed.

(** An invariant of the chunk loops holds at the end when every chunk body
    keeps it. *)
Lemma for_chunks_inv {S} (P : S -> Prop) (cxl czl : Z) (chunks : list NbtChunk)
    (body : Z -> Z -> NbtChunk -> S -> result S) :
  (forall x z chunk s s',
      0 <= x < cxl -> 0 <= z < czl ->
      py_getitem chunks (x + z * cxl) = Return chunk ->
      P s -> body x z chunk s = Return s' -> P s') ->
  forall s s', P s -> for_chunks cxl czl chunks body s = Return s' -> P s'.
Proof.
  intros Hbody s s' Hs. unfold for_chunks.
  apply foldM_inv; [|exact Hs].
  intros s1 x s1' Hx Hs1.
  apply foldM_inv; [|exact Hs1].
  intros s2 z s2' Hz Hs2 Hrun.
  apply elem_of_range in Hx. apply elem_of_range in Hz.
  destruct (py_getitem chunks (x + z * cxl)) as [chunk|e] eqn:E;
    simpl in Hrun; [|discriminate].
  eapply Hbody; eauto.
Qed.

Lemma init_sections_shaped (cxl czl : Z) :
  shaped (Z.to_nat cxl) (Z.to_nat czl) (init_sections cxl czl).
Proof.
  unfold shaped, init_sections. split; [apply length_replicate|].
  apply Forall_replicate. split; [apply length_replicate|].
  apply Forall_replicate. apply length_replicate.
Qed.

(** What a successful [sections[x][z][y] = v] amounts to. *)
Lemma set_section_Return secs x z y v secs' :
  set_section secs x z y v = Return secs' ->
  exists nx nz ny col cell,
    py_norm (Z.of_nat (length secs)) x = Some nx /\ secs !! nx = Some col /\
    py_norm (Z.of_nat (length col)) z = Some nz /\ col !! nz = Some cell /\
    py_norm (Z.of_nat (length cell)) y = Some ny /\
    secs' = <[nx := <[nz := <[ny := v]> cell]> col]> secs.
Proof.
  unfold set_section. intros H.
  destruct (py_getitem secs x) as [col|] eqn:E1; simpl in H; [|discriminate].
  destruct (py_getitem col z) as [cell|] eqn:E2; simpl in H; [|discriminate].
  apply py_getitem_Return in E1 as (nx & Hnx & Hcol).
  apply py_getitem_Return in E2 as (nz & Hnz & Hcell).
  unfold py_setitem in H.
  destruct (py_norm (Z.of_nat (length cell)) y) as [ny|] eqn:E3;
    simpl in H; [|discriminate].
  rewrite Hnz in H. simpl in H. rewrite Hnx in H. injection H as <-.
  exists nx, nz, ny, col, cell. repeat split; assumption.
Qed.

Lemma set_section_shaped nx nz secs x z y v secs' :
  shaped nx nz secs -> set_section secs x z y v = Return secs' ->
  shaped nx nz secs'.
Proof.
  intros [Hlen Hall] H.
  apply set_section_Return in H
    as (ix & iz & iy & col & cell & _ & Hcol & _ & Hcell & _ & ->).
  split; [by rewrite length_insert|].
  apply Forall_insert; [exact Hall|].
  pose proof (Forall_lookup_1 _ _ _ _ Hall Hcol) as [Hcl Hcells].
  split; [by rewrite length_insert|].
  apply Forall_insert; [exact Hcells|].
  rewrite length_insert. exact (Forall_lookup_1 _ _ _ _ Hcells Hcell).
Qed.

Lemma load_section_shaped nx nz x z secs section secs' :
  shaped nx nz secs -> load_section x z secs section = Return secs' ->
  shaped nx nz secs'.
Proof.
  intros Hs. unfold load_section.
  destruct (no_block_states section); [by intros [= <-]|].
  destruct (Palette section) as [p|]; simpl; [|discriminate].
  destruct (BitArray _ _ _) as [ba|]; simpl; [|discriminate].
  by apply set_section_shaped.
Qed.

Lemma load_sections_shaped cxl czl chunks secs :
  load_sections cxl czl chunks (init_sections cxl czl) = Return secs ->
  shaped (Z.to_nat cxl) (Z.to_nat czl) secs.
Proof.
  unfold load_sections.
  apply (for_chunks_inv (shaped (Z.to_nat cxl) (Z.to_nat czl)));
    [|apply init_sections_shaped].
  intros x z chunk s s' _ _ _ Hs.
  apply foldM_inv; [|exact Hs].
  intros s1 sec s1' _ Hs1. by apply load_section_shaped.
Qed.

(** What [__init__] leaves in the object when it returns. *)
Lemma init_Return x1 z1 x2 z2 types chunks ws :
  __init__ x1 z1 x2 z2 types chunks = Return ws ->
  chunkRect ws = (x1 / 16, z1 / 16, ceil_div16 (x2 - x1), ceil_div16 (z2 - z1)) /\
  rect ws = (x1, z1, x2 - x1, z2 - z1) /\
  nbtfile ws = chunks /\
  load_sections (ceil_div16 (x2 - x1)) (ceil_div16 (z2 - z1)) chunks
    (init_sections (ceil_div16 (x2 - x1)) (ceil_div16 (z2 - z1)))
  = Return (sections ws).
Proof.
  unfold __init__. intros H.
  destruct (init_heightmaps _ _ _) as [maps0|]; simpl in H; [|discriminate].
  destruct (load_heightmaps _ _ _ _ _ _) as [maps|]; simpl in H; [|discriminate].
  destruct (load_sections _ _ _ _) as [secs|]; simpl in H; [|discriminate].
  injection H as <-. simpl. repeat split.
Qed.

Lemma get_section_outside (nx nz : nat) (secs : sections_t) (cx cz cy : Z) :
  shaped nx nz secs ->
  Z.of_nat nx <= cx \/ cx < - Z.of_nat nx \/
  Z.of_nat nz <= cz \/ cz < - Z.of_nat nz ->
  get_section secs cx cz cy = Raise IndexError.
Proof.
  intros [Hlen Hall] Hout. unfold get_section.
  destruct (py_getitem secs cx) as [col|e] eqn:E; simpl.
  - apply py_getitem_Return in E as (n & Hn & Hcol).
    pose proof (Forall_lookup_1 _ _ _ _ Hall Hcol) as [Hcl _].
    apply py_norm_Some_range in Hn. rewrite Hlen in Hn.
    rewrite py_getitem_outside; [reflexivity|].
    rewrite Hcl. lia.
  - by rewrite (py_getitem_Raise _ _ _ E).
Qed.

(** C5. When the packed array yields, at the queried position, an index at
    or beyond the palette length, the query raises: the palette lookup fails
    with Python's [IndexError], which nothing catches.  No descriptor is
    returned, whatever the codec. *)
Theorem palette_index_out_of_range_raises
    (ws : WorldSlice) (x y z crx crz cxl czl : Z) (cs : CachedSection) (idx : Z) :
  chunkRect ws = (crx, crz, cxl, czl) ->
  get_section (sections ws) (x / 16 - crx) (z / 16 - crz) (y / 16)
    = Return (Some cs) ->
  getAt (blockStatesBitArray cs)
        ((y mod 16) * 16 * 16 + (z mod 16) * 16 + x mod 16) = Return idx ->
  Z.of_nat (length (palette cs)) <= idx ->
  getBlockCompoundAt ws x y z = Raise IndexError /\
  getBlockAt ws x y z = Raise IndexError.
Proof.
  intros Hrect Hsec Hget Hidx.
  assert (H : getBlockCompoundAt ws x y z = Raise IndexError).
  { unfold getBlockCompoundAt. rewrite Hrect, Hsec, Hget. simpl.
    rewrite py_getitem_outside by lia. reflexivity. }
  split; [exact H|]. unfold getBlockAt. by rewrite H.
Qed.

(** C4, as the code has it.  In a constructed slice, a coordinate whose
    chunk index is at or beyond the chunk count of the rect on an axis, or
    below minus that count, makes the section lookup raise [IndexError]; the
    handler turns that into [None], and [getBlockAt] answers
    ["minecraft:void_air"].  No error reaches the caller. *)
Theorem beyond_rect_query_returns_void_air
    (x1 z1 x2 z2 : Z) (types : option (list string)) (chunks : list NbtChunk)
    (ws : WorldSlice) (x y z : Z) :
  __init__ x1 z1 x2 z2 types chunks = Return ws ->
  let cxl := ceil_div16 (x2 - x1) in
  let czl := ceil_div16 (z2 - z1) in
  let chunkX := x / 16 - x1 / 16 in
  let chunkZ := z / 16 - z1 / 16 in
  cxl <= chunkX \/ chunkX < - cxl \/ czl <= chunkZ \/ chunkZ < - czl ->
  getBlockCompoundAt ws x y z = Return None /\
  getBlockAt ws x y z = Return "minecraft:void_air".
Proof.
  intros Hinit cxl czl chunkX chunkZ Hout.
  apply init_Return in Hinit as (Hrect & _ & _ & Hload).
  apply load_sections_shaped in Hload.
  assert (H : getBlockCompoundAt ws x y z = Return None).
  { unfold getBlockCompoundAt. rewrite Hrect.
    rewrite (get_section_outside _ _ _ _ _ _ Hload); [reflexivity|].
    fold cxl czl chunkX chunkZ. lia. }
  split; [exact H|]. unfold getBlockAt. by rewrite H.
Qed.









End LoaderFacts.

(** ** Concrete slices, decoded with the packed array of the spec *)

Section WorldSliceRuns.

Import worldLoader.
Local Existing Instance PackedIntArray.codec.

Abbreviation CachedSection := (CachedSection_of PackedIntArray.t).
Abbreviation WorldSlice := (WorldSlice_of PackedIntArray.t).

Lemma stone_slice_loaded :
  __init__ 0 0 16 16 (Some []) [stone_chunk] = Return stone_slice.
Proof. vm_compute. reflexivity. Qed.

Lemma corrupt_slice_loaded :
  __init__ 0 0 16 16 (Some []) [corrupt_chunk] = Return corrupt_slice.
Proof. vm_compute. reflexivity. Qed.

Lemma partial_slice_loaded :
  __init__ 0 0 16 16 (Some []) [partial_chunk] = Return partial_slice.
Proof. vm_compute. reflexivity. Qed.

(** C4 as stated fails twice over on the slice of one stone chunk at
    x, z in [0, 16).  At x = 16 the chunk index is 1, outside the rect, and
    the caller gets a block name, not an error.  At x = -1 the chunk index
    is -1, outside the rect, and the caller gets the stone of chunk 0. *)
Lemma out_of_rect_query_answers :
  __init__ 0 0 16 16 (Some []) [stone_chunk] = Return stone_slice /\
  16 / 16 - 0 / 16 = 1 /\
  getBlockAt stone_slice 16 0 0 = Return "minecraft:void_air" /\
  is_error (getBlockAt stone_slice 16 0 0) = false /\
  (-1) / 16 - 0 / 16 = -1 /\
  getBlockAt stone_slice (-1) 0 0 = Return "minecraft:stone".
Proof. split; [vm_compute; reflexivity|]. repeat split. Qed.

Lemma beyond_rect_run :
  __init__ 0 0 16 16 (Some []) [stone_chunk] = Return stone_slice /\
  (ceil_div16 (16 - 0) <= 16 / 16 - 0 / 16) /\
  getBlockCompoundAt stone_slice 16 0 0 = Return None /\
  getBlockAt stone_slice 16 0 0 = Return "minecraft:void_air".
Proof.
  split; [exact stone_slice_loaded|].
  split; [vm_compute; discriminate|].
  pose proof (beyond_rect_query_returns_void_air (codec := PackedIntArray.codec)
                0 0 16 16 (Some []) [stone_chunk] stone_slice 16 0 0
                stone_slice_loaded) as H.
  cbv zeta in H. apply H. left. vm_compute. discriminate.
Defined.

Lemma corrupt_palette_run :
  getAt (PackedIntArray.mk 4 4096 (1 :: replicate 255 0)) 0 = Return 1 /\
  Z.of_nat (length [stone]) <= 1 /\
  getBlockCompoundAt corrupt_slice 0 0 0 = Raise IndexError /\
  getBlockAt corrupt_slice 0 0 0 = Raise IndexError.
Proof.
  split; [reflexivity|]. split; [simpl; lia|].
  apply (palette_index_out_of_range_raises (codec := PackedIntArray.codec)
           corrupt_slice 0 0 0 0 0 1 1
           (mkCachedSection [stone] (PackedIntArray.mk 4 4096 (1 :: replicate 255 0)))
           1).
  - reflexivity.
  - vm_compute. reflexivity.
  - vm_compute. reflexivity.
  - simpl. lia.
Defined.


(** The packed array of the spec on its own example: three 5-bit values
    in one word, read back in order. *)
Lemma packed_three_values :
  PackedIntArray.encode 5 [1; 3; 21] = [1 + 3 * 32 + 21 * 1024] /\
  (fun i => PackedIntArray.decode
              (PackedIntArray.mk 5 3 (PackedIntArray.encode 5 [1; 3; 21])) i)
    <$> [0; 1; 2; 3]
  = [Return 1; Return 3; Return 21; Raise RangeError].
Proof. split; reflexivity. Qed.

(** C7 at a concrete input.  The origin is x = 2, so [rectOffset] is 2 and
    the samples of columns 0 and 1 of chunk 0 get the destination rows -2
    and -1.  They are not dropped: numpy counts a negative index from the
    end, so they land in rows 15 and 16 of the 17 rows.  Row 15 stands for
    x = 17, inside the region, and now reads 100, the sample of x = 0.  Only
    an index that numpy itself rejects is discarded, as the last line
    shows for row 17. *)
Lemma heightmap_negative_index_wraps :
  2 mod 16 = 2 /\
  (exists ws,
     ramp_slice = Return ws /\
     heightmaps ws !! "MOTION_BLOCKING" =
       Some (((fun i => [102 + i; 102 + i]) <$> seqZ 0 14)
             ++ [[0; 0]; [100; 100]; [101; 101]])) /\
  store_sample (replicate 17 [0; 0]) (- 2 + 0 * 16 + 0) 0 (Return 100)
    = Return (<[15%nat := [100; 0]]> (replicate 17 [0; 0])) /\
  store_sample (replicate 17 [0; 0]) 17 0 (Return 100)
    = Return (replicate 17 [0; 0]).
Proof.
  split; [reflexivity|]. split; [|split; reflexivity].
  eexists. split; [vm_compute; reflexivity|]. vm_compute. reflexivity.
Qed.

End WorldSliceRuns.

(** * Further properties of [interfaceUtils.py] *)

Section InterfaceMore.

Import interfaceUtils.

Variable server : nat -> reply.

(** X1. [local2global] and [global2local] undo each other, for full
    coordinates and for the two-coordinate form with [y] left out; a
    coordinate that is [None] is dropped from the result. *)
Theorem local2global_global2local_inverse (i : Interface) (x y z : Z) :
  (exists gx gy gz,
     local2global i (Some x) (Some y) (Some z) = [gx; gy; gz] /\
     global2local i (Some gx) (Some gy) (Some gz) = [x; y; z]) /\
  (exists lx ly lz,
     global2local i (Some x) (Some y) (Some z) = [lx; ly; lz] /\
     local2global i (Some lx) (Some ly) (Some lz) = [x; y; z]) /\
  (exists gx gz,
     local2global i (Some x) None (Some z) = [gx; gz] /\
     global2local i (Some gx) None (Some gz) = [x; z]) /\
  (forall a b c : option Z,
     length (local2global i a b c) = length (global2local i a b c) /\
     length (local2global i a b c) =
       (length (option_list a) + length (option_list b) + length (option_list c))%nat).
Proof.
  destruct i as [[[ox oy] oz] b lim buf]. unfold local2global, global2local.
  simpl. repeat split.
  - exists (x + ox), (y + oy), (z + oz). split; [reflexivity|].
    repeat f_equal; lia.
  - exists (x - ox), (y - oy), (z - oz). split; [reflexivity|].
    repeat f_equal; lia.
  - exists (x + ox), (z + oz). split; [reflexivity|].
    repeat f_equal; lia.
  - destruct a, b0, c; reflexivity.
  - destruct a, b0, c; reflexivity.
Qed.

(** X2. [getBlock] asks for the block at the local coordinates shifted
    once by the offset, with exactly one GET; a connection error is answered
    with ["minecraft:void_air"], any other exception is passed on.  The
    object itself is not changed.  An unbuffered [setBlock] for the same
    coordinates writes to the same URL. *)
Theorem getBlock_reads_where_setBlock_writes (x y z : Z) (blk : string) (s : state) :
  buffering (self s) = false ->
  let '(ox, oy, oz) := offset (self s) in
  let url := blocks_url (x + ox) (y + oy) (z + oz) in
  getBlock server x y z s =
    (match server (length (sent s)) with
     | Response text => Return text
     | Throws ConnectionError => Return "minecraft:void_air"
     | Throws e => Raise e
     end,
     mkState (self s) (sent s ++ [GET url])) /\
  snd (setBlock server x y z blk s) = mkState (self s) (sent s ++ [PUT url blk]).
Proof.
  intros Hb.
  pose proof (setBlock_direct_sent server x y z blk s Hb) as Hset.
  destruct s as [[[[ox oy] oz] b lim buf] log]; simpl in *.
  split; [|exact Hset].
  unfold getBlock, bind, local2global, except_ConnectionError, requests_get; simpl.
  destruct (server (length log)) as [t|[]]; reflexivity.
Qed.

(** X3. [fill] does not depend on the order of its two corners, in either
    mode and over any transport. *)
Theorem fill_corner_order (x1 y1 z1 x2 y2 z2 : Z) (blk : string) (s : state) :
  fill server x1 y1 z1 x2 y2 z2 blk s = fill server x2 y2 z2 x1 y1 z1 blk s.
Proof.
  unfold fill, local2global.
  destruct (offset (self s)) as [[ox oy] oz]. simpl. unfold bind, ret. simpl.
  rewrite (Z.min_comm (x2 + ox)), (Z.min_comm (y2 + oy)), (Z.min_comm (z2 + oz)).
  rewrite (Z.max_comm (x2 + ox)), (Z.max_comm (y2 + oy)), (Z.max_comm (z2 + oz)).
  reflexivity.
Qed.

Lemma elem_of_cuboid xlo xhi ylo yhi zlo zhi (x y z : Z) :
  (x, y, z) ∈ cuboid xlo xhi ylo yhi zlo zhi <->
  xlo <= x <= xhi /\ ylo <= y <= yhi /\ zlo <= z <= zhi.
Proof.
  unfold cuboid. rewrite list_elem_of_bind. split.
  - intros (x' & Hin & Hx). apply list_elem_of_bind in Hin as (y' & Hin & Hy).
    apply list_elem_of_fmap in Hin as (z' & [= -> -> ->] & Hz).
    apply elem_of_range in Hx, Hy, Hz. lia.
  - intros (Hx & Hy & Hz). exists x. split; [|apply elem_of_range; lia].
    apply list_elem_of_bind. exists y. split; [|apply elem_of_range; lia].
    apply list_elem_of_fmap. exists z. split; [reflexivity|apply elem_of_range; lia].
Qed.

Lemma NoDup_cuboid xlo xhi ylo yhi zlo zhi :
  NoDup (cuboid xlo xhi ylo yhi zlo zhi).
Proof.
  unfold cuboid, range. apply NoDup_bind; [| |apply NoDup_seqZ].
  - intros x x' [[a b] c] _ _ H1 H2.
    apply list_elem_of_bind in H1 as (y1 & H1 & _).
    apply list_elem_of_bind in H2 as (y2 & H2 & _).
    apply list_elem_of_fmap in H1 as (? & E1 & _).
    apply list_elem_of_fmap in H2 as (? & E2 & _). congruence.
  - intros x _. apply NoDup_bind; [| |apply NoDup_seqZ].
    + intros y y' [[a b] c] _ _ H1 H2.
      apply list_elem_of_fmap in H1 as (? & E1 & _).
      apply list_elem_of_fmap in H2 as (? & E2 & _). congruence.
    + intros y _. apply NoDup_fmap_2_strong; [|apply NoDup_seqZ].
      intros c c' _ _ E. congruence.
Qed.

(** X4. With a zero offset, an unbuffered [fill] over a transport that
    fails only transiently writes every integer point of the inclusive
    cuboid between the two corners exactly once, in loop order; the number
    of requests is the volume of the cuboid. *)
Theorem fill_zero_offset_covers_cuboid
    (x1 y1 z1 x2 y2 z2 : Z) (blk : string) (s : state) :
  transient_only server ->
  buffering (self s) = false ->
  offset (self s) = (0, 0, 0) ->
  let pts := cuboid (Z.min x1 x2) (Z.max x1 x2) (Z.min y1 y2) (Z.max y1 y2)
                    (Z.min z1 z2) (Z.max z1 z2) in
  fill server x1 y1 z1 x2 y2 z2 blk s =
    (Return tt,
     mkState (self s)
       (sent s ++ ((fun '(x, y, z) => PUT (blocks_url x y z) blk) <$> pts))) /\
  NoDup pts /\
  (forall x y z, (x, y, z) ∈ pts <->
     Z.min x1 x2 <= x <= Z.max x1 x2 /\ Z.min y1 y2 <= y <= Z.max y1 y2 /\
     Z.min z1 z2 <= z <= Z.max z1 z2) /\
  Z.of_nat (length pts) =
    (Z.abs (x2 - x1) + 1) * (Z.abs (y2 - y1) + 1) * (Z.abs (z2 - z1) + 1).
Proof.
  intros Hsrv Hb Hoff pts.
  split; [|split; [apply NoDup_cuboid|split; [intros; apply elem_of_cuboid|]]].
  - pose proof (fill_direct server x1 y1 z1 x2 y2 z2 blk s Hsrv Hb) as H.
    rewrite Hoff in H. rewrite !Z.add_0_r in H. rewrite H. f_equal. f_equal.
    f_equal. apply list_fmap_ext. intros _ [[x y] z] _. by rewrite !Z.add_0_r.
  - unfold pts. rewrite length_cuboid by lia.
    replace (Z.max x1 x2 - Z.min x1 x2) with (Z.abs (x2 - x1)) by lia.
    replace (Z.max y1 y2 - Z.min y1 y2) with (Z.abs (y2 - y1)) by lia.
    replace (Z.max z1 z2 - Z.min z1 z2) with (Z.abs (z2 - z1)) by lia.
    reflexivity.
Qed.

(** X5. In buffered mode with room for the whole cuboid, [fill] sends
    nothing: it appends one entry per point of the cuboid spanned by the
    converted corners, in loop order.  Each entry is the point passed through
    [setBlock], which adds the offset to it once more. *)
Theorem fill_buffered_accumulates
    (x1 y1 z1 x2 y2 z2 : Z) (blk : string) (s : state) :
  let '(ox, oy, oz) := offset (self s) in
  let pts := cuboid (Z.min (x1 + ox) (x2 + ox)) (Z.max (x1 + ox) (x2 + ox))
                    (Z.min (y1 + oy) (y2 + oy)) (Z.max (y1 + oy) (y2 + oy))
                    (Z.min (z1 + oz) (z2 + oz)) (Z.max (z1 + oz) (z2 + oz)) in
  buffering (self s) = true ->
  Z.of_nat (length (buffer (self s)) + length pts) < bufferlimit (self s) ->
  fill server x1 y1 z1 x2 y2 z2 blk s =
  (Return tt,
   mkState (with_buffer (self s)
              (buffer (self s) ++
               ((fun '(x, y, z) => (x + ox, y + oy, z + oz, blk)) <$> pts)))
           (sent s)).
Proof.
  destruct (offset (self s)) as [[ox oy] oz] eqn:Hoff. intros pts Hb Hroom.
  unfold fill, local2global. rewrite Hoff. simpl. unfold bind at 1 2. simpl.
  rewrite nested_loops_cuboid. fold pts.
  assert (Hcalls : forall s0,
             for_each pts (fun '(x, y, z) => setBlock server x y z blk) s0 =
             setBlocks server ((fun '(x, y, z) => (x, y, z, blk)) <$> pts) s0).
  { intros s0. unfold setBlocks. rewrite for_each_fmap.
    apply for_each_ext. intros [[x y] z] s1. reflexivity. }
  rewrite Hcalls, setBlocks_below; [|done|by rewrite length_fmap].
  do 3 f_equal. rewrite <- list_fmap_compose. f_equal.
  apply list_fmap_ext. intros _ [[x y] z] _. simpl.
  unfold to_global. by rewrite Hoff.
Qed.

(** X6. Whatever the transport does, [sendBlocks] makes at least one and
    at most [retries + 1] attempts, all with the same request; it never
    touches the offset, the mode or the limit; and it empties the buffer
    exactly when it returns a response text, leaving it as it was
    otherwise. *)
Theorem sendBlocks_attempts_bounded (x y z retries : Z) (s : state) :
  exists (k : nat) res s',
    sendBlocks server x y z retries s = (res, s') /\
    (1 <= k <= S (Z.to_nat retries))%nat /\
    sent s' = sent s ++ replicate k (flush_request x y z (self s)) /\
    offset (self s') = offset (self s) /\
    buffering (self s') = buffering (self s) /\
    bufferlimit (self s') = bufferlimit (self s) /\
    ((exists text, res = Return (Some text) /\ buffer (self s') = []) \/
     ((forall text, res <> Return (Some text)) /\
      buffer (self s') = buffer (self s))).
Proof.
  destruct (sendBlocks_from_spec server x y z (Z.to_nat retries) s)
    as (k & res & s' & Hrun & Hk & Hsent & _ & Hlast).
  exists k, res, s'. split; [exact Hrun|]. split; [exact Hk|].
  split; [exact Hsent|].
  destruct (server (length (sent s) + (k - 1))%nat) as [t|e].
  - destruct Hlast as [-> ->]. repeat split. left. eauto.
  - assert (Hkeep : (forall text, res <> Return (Some text)) /\ self s' = self s).
    { destruct e; destruct Hlast as (? & Hl); try destruct Hl as (? & Hl);
        subst; (split; [intros t; discriminate|assumption]). }
    destruct Hkeep as [Hres ->]. repeat split. right. split; [exact Hres|reflexivity].
Qed.

(** X7. Switching buffering on changes the mode and nothing else: no
    request is sent and pending entries stay.  [toggleBuffer] called in
    unbuffered mode does this and returns [True]. *)
Theorem entering_buffered_mode_is_silent (s : state) :
  Buffering_set server true s =
    (Return tt, mkState (with_buffering (self s) true) (sent s)) /\
  (buffering (self s) = false ->
   toggleBuffer server s =
     (Return true, mkState (with_buffering (self s) true) (sent s))).
Proof.
  split; [reflexivity|].
  intros Hb. unfold toggleBuffer, bind, Buffering, ret. rewrite Hb. reflexivity.
Qed.

(** X8. Entries that a failed flush left in the buffer go out with the
    next flush.  In buffered mode, let a [setBlock] reach the limit while the
    server is unreachable for all six attempts, and let the server answer
    the attempt after that: a second [setBlock] then sends one request with
    the old entries, the first call's entry and its own entry, in that
    order, and empties the buffer. *)
Theorem failed_flush_is_resent (c c' : placement) (s : state) (text : string) :
  buffering (self s) = true ->
  bufferlimit (self s) <= Z.of_nat (length (buffer (self s))) + 1 ->
  (forall j, (j <= 5)%nat ->
             server (length (sent s) + j)%nat = Throws ConnectionError) ->
  server (length (sent s) + 6)%nat = Response text ->
  let kept := buffer (self s) ++ [to_global (self s) c] in
  let all := kept ++ [to_global (self s) c'] in
  setBlocks server [c] s =
    (Return tt,
     mkState (with_buffer (self s) kept)
       (sent s ++ replicate 6 (PUT (blocks_url 0 0 0) (body_of kept)))) /\
  setBlocks server [c; c'] s =
    (Return tt,
     mkState (with_buffer (self s) [])
       (sent s ++ replicate 6 (PUT (blocks_url 0 0 0) (body_of kept))
               ++ [PUT (blocks_url 0 0 0) (body_of all)])).
Proof.
  intros Hb Hlim Hfail Hok kept all.
  destruct c as [[[x y] z] blk], c' as [[[x' y'] z'] blk'].
  assert (H1 : setBlock server x y z blk s =
               (Return tt,
                mkState (with_buffer (self s) kept)
                  (sent s ++ replicate 6 (PUT (blocks_url 0 0 0) (body_of kept))))).
  { rewrite setBlock_buffered by done. cbn zeta.
    destruct (Z.geb_spec (Z.of_nat (length (buffer (self s))) + 1)
                (bufferlimit (self s))) as [_|?]; [|lia].
    unfold bind, sendBlocks_default, sendBlocks.
    change (Z.to_nat 5) with 5%nat.
    rewrite sendBlocks_from_all_fail by exact Hfail. reflexivity. }
  split.
  - unfold setBlocks. simpl. unfold bind. rewrite H1. reflexivity.
  - unfold setBlocks. simpl. unfold bind at 1. rewrite H1.
    unfold bind at 1. rewrite setBlock_buffered by done. cbn zeta.
    simpl buffer. simpl bufferlimit. simpl sent.
    destruct (Z.geb_spec (Z.of_nat (length kept) + 1) (bufferlimit (self s)))
      as [_|Hlt].
    2:{ unfold kept in Hlt. rewrite length_app in Hlt. simpl in Hlt. lia. }
    unfold bind, sendBlocks_default, sendBlocks.
    rewrite sendBlocks_from_unfold. cbn zeta. simpl sent. simpl self.
    rewrite length_app. simpl length. rewrite Hok. simpl.
    rewrite <- app_assoc. reflexivity.
Qed.

(** X9. When the server reports a build area, [requestBuildArea] sends one
    GET and returns four numbers.  The first two are the area's origin in
    local coordinates: [local2global] takes them back to [xFrom] and
    [zFrom].  The last two are the extents [xTo - xFrom] and [zTo - zFrom],
    from which the offset has been subtracted as well. *)
Theorem requestBuildArea_origin_is_local
    (area_server : nat -> area_reply) (s : state)
    (text : string) (xFrom zFrom xTo zTo : Z) :
  area_server (length (sent s)) =
    AreaResponse true text (JsonArea xFrom zFrom xTo zTo) ->
  exists lx lz dx dz,
    requestBuildArea area_server s =
      (Return (Tuple [lx; lz; dx; dz]),
       mkState (self s) (sent s ++ [GET buildarea_url])) /\
    local2global (self s) (Some lx) None (Some lz) = [xFrom; zFrom] /\
    dx = xTo - xFrom - (offset (self s)).1.1 /\
    dz = zTo - zFrom - (offset (self s)).2.
Proof.
  intros Hsrv. unfold requestBuildArea. rewrite Hsrv.
  destruct s as [[[[ox oy] oz] b lim buf] log]. unfold global2local, local2global.
  simpl. eexists _, _, _, _. split; [reflexivity|].
  split; [repeat f_equal; lia|]. split; reflexivity.
Qed.

(** Without a build area, [requestBuildArea] returns -1: when the
    response is not ok, and when the document is the number -1. *)
Theorem requestBuildArea_without_area
    (area_server : nat -> area_reply) (s : state) (ok : bool) (text : string)
    (json : area_json) :
  area_server (length (sent s)) = AreaResponse ok text json ->
  ok = false \/ json = JsonMinusOne ->
  requestBuildArea area_server s =
    (Return MinusOne, mkState (self s) (sent s ++ [GET buildarea_url])).
Proof.
  intros Hsrv Hno. unfold requestBuildArea. rewrite Hsrv.
  destruct Hno as [-> | ->]; [reflexivity|]. by destruct ok.
Qed.

(** The text of the request the deprecated [sendBlocks(0, 0, 0)] sends,
    spelled out. *)
Lemma relative_request_text (buf : list placement) :
  PUT (blocks_url 0 0 0) (deprecated.relative_body buf) =
  PUT "http://localhost:9000/blocks?x=0&y=0&z=0"
    (String.concat (String (Ascii.ascii_of_nat 10) "")
       ((fun bp : placement =>
           let '(x, y, z, blk) := bp in
           "~" +:+ pretty x +:+ " ~" +:+ pretty y +:+ " ~" +:+ pretty z
             +:+ " " +:+ blk)
          <$> buf)).
Proof.
  unfold deprecated.relative_body. rewrite join_concat. reflexivity.
Qed.

(** X10. The deprecated [placeBlockBatched]: below the limit the entry is
    only appended to the shared list; from the limit on, [sendBlocks] runs,
    and an answered request to [blocks?x=0&y=0&z=0] carries every entry, in
    insertion order, as a line [~x ~y ~z block], the lines separated by a
    line feed, and empties the list, while six connection errors in a row
    leave the list as it is and return [None]. *)
Theorem deprecated_placeBlockBatched
    (x y z : Z) (blk : string) (limit : Z) (g : deprecated.gstate) :
  let buf := deprecated.blockBuffer g ++ [(x, y, z, blk)] in
  let line := fun bp : placement =>
    let '(x, y, z, blk) := bp in
    "~" +:+ pretty x +:+ " ~" +:+ pretty y +:+ " ~" +:+ pretty z
      +:+ " " +:+ blk in
  let put := PUT "http://localhost:9000/blocks?x=0&y=0&z=0"
               (String.concat (String (Ascii.ascii_of_nat 10) "") (line <$> buf)) in
  (Z.of_nat (length buf) < limit ->
   deprecated.placeBlockBatched server x y z blk limit g =
     (Return None, deprecated.mkGstate buf (deprecated.wire g))) /\
  (limit <= Z.of_nat (length buf) ->
   forall text,
     server (length (deprecated.wire g)) = Response text ->
     deprecated.placeBlockBatched server x y z blk limit g =
       (Return (Some text),
        deprecated.mkGstate [] (deprecated.wire g ++ [put]))) /\
  (limit <= Z.of_nat (length buf) ->
   (forall j, (j <= 5)%nat ->
      server (length (deprecated.wire g) + j)%nat = Throws ConnectionError) ->
   deprecated.placeBlockBatched server x y z blk limit g =
     (Return None,
      deprecated.mkGstate buf (deprecated.wire g ++ replicate 6 put))).
Proof.
  intros buf line put.
  assert (Hput : PUT (blocks_url 0 0 0) (deprecated.relative_body buf) = put)
    by apply relative_request_text.
  unfold deprecated.placeBlockBatched. simpl deprecated.blockBuffer.
  simpl deprecated.wire. fold buf.
  split; [|split].
  - intros Hlt. destruct (Z.geb_spec (Z.of_nat (length buf)) limit); [lia|reflexivity].
  - intros Hge text Hsrv.
    destruct (Z.geb_spec (Z.of_nat (length buf)) limit); [|lia].
    unfold deprecated.sendBlocks. change (Z.to_nat 5) with 5%nat.
    cbn [deprecated.sendBlocks_from deprecated.wire deprecated.blockBuffer].
    rewrite Hsrv, Hput. reflexivity.
  - intros Hge Hfail.
    destruct (Z.geb_spec (Z.of_nat (length buf)) limit); [|lia].
    unfold deprecated.sendBlocks. change (Z.to_nat 5) with 5%nat.
    pose proof (Hfail 0%nat ltac:(lia)) as H0. rewrite Nat.add_0_r in H0.
    pose proof (Hfail 1%nat ltac:(lia)) as H1.
    pose proof (Hfail 2%nat ltac:(lia)) as H2.
    pose proof (Hfail 3%nat ltac:(lia)) as H3.
    pose proof (Hfail 4%nat ltac:(lia)) as H4.
    pose proof (Hfail 5%nat ltac:(lia)) as H5.
    cbn [deprecated.sendBlocks_from deprecated.wire deprecated.blockBuffer].
    rewrite Hput.
    rewrite H0. rewrite !length_app. cbn [length].
    rewrite H1.
    replace (length (deprecated.wire g) + 1 + 1)%nat
      with (length (deprecated.wire g) + 2)%nat by lia. rewrite H2.
    replace (length (deprecated.wire g) + 2 + 1)%nat
      with (length (deprecated.wire g) + 3)%nat by lia. rewrite H3.
    replace (length (deprecated.wire g) + 3 + 1)%nat
      with (length (deprecated.wire g) + 4)%nat by lia. rewrite H4.
    replace (length (deprecated.wire g) + 4 + 1)%nat
      with (length (deprecated.wire g) + 5)%nat by lia. rewrite H5.
    rewrite <- !app_assoc. reflexivity.
Qed.

(** X11. What an unbuffered [fill] sends, for every pair of corners and
    every offset [(ox, oy, oz)], over a transport that fails only
    transiently: one PUT per point of the cuboid spanned by the corners
    after [local2global], in loop order, each addressed to that point plus
    the offset. *)
Theorem fill_unbuffered_requests
    (x1 y1 z1 x2 y2 z2 ox oy oz : Z) (blk : string) (s : state) :
  transient_only server ->
  buffering (self s) = false ->
  offset (self s) = (ox, oy, oz) ->
  fill server x1 y1 z1 x2 y2 z2 blk s =
  (Return tt,
   mkState (self s)
     (sent s ++
      ((fun '(gx, gy, gz) => PUT (blocks_url (gx + ox) (gy + oy) (gz + oz)) blk)
         <$> cuboid (Z.min (x1 + ox) (x2 + ox)) (Z.max (x1 + ox) (x2 + ox))
                    (Z.min (y1 + oy) (y2 + oy)) (Z.max (y1 + oy) (y2 + oy))
                    (Z.min (z1 + oz) (z2 + oz)) (Z.max (z1 + oz) (z2 + oz))))).
Proof.
  intros Hsrv Hb Hoff.
  pose proof (fill_direct server x1 y1 z1 x2 y2 z2 blk s Hsrv Hb) as H.
  rewrite Hoff in H. exact H.
Qed.

(** X12. With no retries left ([retries] zero or negative) [sendBlocks]
    makes exactly one attempt: a response empties the buffer, a connection
    error gives [None] with the buffer kept, any other exception is passed
    on. *)
Theorem sendBlocks_without_retries (x y z retries : Z) (s : state) :
  retries <= 0 ->
  sendBlocks server x y z retries s =
  match server (length (sent s)) with
  | Response text =>
      (Return (Some text),
       mkState (with_buffer (self s) []) (sent s ++ [flush_request x y z (self s)]))
  | Throws ConnectionError =>
      (Return None, mkState (self s) (sent s ++ [flush_request x y z (self s)]))
  | Throws e =>
      (Raise e, mkState (self s) (sent s ++ [flush_request x y z (self s)]))
  end.
Proof.
  intros Hr. unfold sendBlocks.
  replace (Z.to_nat retries) with 0%nat by lia.
  rewrite sendBlocks_from_unfold. cbn zeta.
  destruct (server (length (sent s))) as [t|[]]; reflexivity.
Qed.

End InterfaceMore.

Section ExampleFacts.

Import example.

(** X13. [rectanglesOverlap] is symmetric, and for rectangles of positive
    size it says [True] exactly when the two half-open rectangles share a
    cell. *)
Theorem rectanglesOverlap_meaning (x1 z1 w1 d1 x2 z2 w2 d2 : Z) :
  0 < w1 -> 0 < d1 -> 0 < w2 -> 0 < d2 ->
  rectanglesOverlap (x1, z1, w1, d1) (x2, z2, w2, d2) =
    rectanglesOverlap (x2, z2, w2, d2) (x1, z1, w1, d1) /\
  (rectanglesOverlap (x1, z1, w1, d1) (x2, z2, w2, d2) = true <->
   exists x z, (x1 <= x < x1 + w1 /\ z1 <= z < z1 + d1) /\
               (x2 <= x < x2 + w2 /\ z2 <= z < z2 + d2)).
Proof.
  intros Hw1 Hd1 Hw2 Hd2. unfold rectanglesOverlap. split.
  - destruct (Z.geb_spec x1 (x2 + w2)), (Z.leb_spec (x1 + w1) x2),
      (Z.leb_spec (z1 + d1) z2), (Z.geb_spec z1 (z2 + d2)),
      (Z.geb_spec x2 (x1 + w1)), (Z.leb_spec (x2 + w2) x1),
      (Z.leb_spec (z2 + d2) z1), (Z.geb_spec z2 (z1 + d1));
      simpl; try reflexivity; lia.
  - destruct (Z.geb_spec x1 (x2 + w2)), (Z.leb_spec (x1 + w1) x2),
      (Z.leb_spec (z1 + d1) z2), (Z.geb_spec z1 (z2 + d2)); simpl;
      (split; [try discriminate; intros _|try (intros (x & z & ?); lia); reflexivity]).
    exists (Z.max x1 x2), (Z.max z1 z2). lia.
Qed.

Lemma rectanglesOverlap_run :
  (0 < 4 /\ 0 < 4 /\ 0 < 3 /\ 0 < 3) /\
  rectanglesOverlap (0, 0, 4, 4) (3, 3, 3, 3) = true /\
  rectanglesOverlap (0, 0, 4, 4) (4, 0, 3, 3) = false.
Proof.
  split; [lia|].
  pose proof (rectanglesOverlap_meaning 0 0 4 4 3 3 3 3
                ltac:(lia) ltac:(lia) ltac:(lia) ltac:(lia)) as [_ H].
  split; [|reflexivity]. apply H. exists 3, 3. lia.
Defined.

End ExampleFacts.

(** * Further properties of [gdpc/worldLoader.py] *)

Section LoaderMore.

Import worldLoader.
Context `{codec : Codec}.

Abbreviation CachedSection := (CachedSection_of bitarray).
Abbreviation WorldSlice := (WorldSlice_of bitarray).
Abbreviation sections_t := (list (list (list (option CachedSection)))).

Lemma foldM_app {A S} (f : S -> A -> result S) (l1 l2 : list A) (s : S) :
  foldM f (l1 ++ l2) s = rbind (foldM f l1 s) (foldM f l2).
Proof.
  revert s. induction l1 as [|a l1 IH]; intros s; simpl; [reflexivity|].
  destruct (f s a); simpl; [apply IH|reflexivity].
Qed.

(** When a loop returns, each of its bodies returned. *)
Lemma foldM_all_return {A S} (f : S -> A -> result S) (l : list A) :
  forall s s', foldM f l s = Return s' ->
  forall a, a ∈ l -> exists s1 s2, f s1 a = Return s2.
Proof.
  induction l as [|a l IH]; intros s s' Hrun b Hin; [by apply elem_of_nil in Hin|].
  simpl in Hrun. destruct (f s a) as [s1|] eqn:E; simpl in Hrun; [|discriminate].
  apply elem_of_cons in Hin as [->|Hin]; [eauto|].
  eapply IH; eauto.
Qed.

Lemma for_chunks_all_chunks {S} cxl czl chunks
    (body : Z -> Z -> NbtChunk -> S -> result S) s s' :
  for_chunks cxl czl chunks body s = Return s' ->
  forall x z, 0 <= x < cxl -> 0 <= z < czl ->
  exists chunk, py_getitem chunks (x + z * cxl) = Return chunk.
Proof.
  unfold for_chunks. intros Hrun x z Hx Hz.
  destruct (foldM_all_return _ _ _ _ Hrun x) as (s1 & s2 & Hin);
    [by apply elem_of_range|].
  destruct (foldM_all_return _ _ _ _ Hin z) as (s3 & s4 & Hz');
    [by apply elem_of_range|].
  destruct (py_getitem chunks (x + z * cxl)) as [chunk|]; [eauto|discriminate].
Qed.

(** What [__init__] did to build the height maps. *)
Lemma init_Return_heightmaps x1 z1 x2 z2 types chunks (ws : WorldSlice) :
  __init__ x1 z1 x2 z2 types chunks = Return ws ->
  heightmapTypes ws = default default_heightmapTypes types /\
  exists maps0,
    init_heightmaps (default default_heightmapTypes types) (x2 - x1) (z2 - z1)
      = Return maps0 /\
    load_heightmaps (default default_heightmapTypes types)
      (x1 mod 16, z1 mod 16) (ceil_div16 (x2 - x1)) (ceil_div16 (z2 - z1))
      chunks maps0 = Return (heightmaps ws).
Proof.
  unfold __init__. intros H.
  destruct (init_heightmaps _ _ _) as [maps0|]; simpl in H; [|discriminate].
  destruct (load_heightmaps _ _ _ _ _ _) as [maps|] eqn:E; simpl in H; [|discriminate].
  destruct (load_sections _ _ _ _) as [secs|]; simpl in H; [|discriminate].
  injection H as <-. simpl. split; [reflexivity|]. eauto.
Qed.

Lemma ceil_div16_bounds (d : Z) :
  16 * (ceil_div16 d - 1) < d <= 16 * ceil_div16 d.
Proof.
  unfold ceil_div16.
  pose proof (Z.div_mod (- d) 16 ltac:(lia)) as Hdm.
  pose proof (Z.mod_pos_bound (- d) 16 ltac:(lia)) as Hb.
  lia.
Qed.

(** X14. A constructed slice records the region as origin and size, the
    chunk rect as floor-divided origin and rounded-up counts, and a
    section table of exactly that many columns and cells, sixteen slots
    each. *)
Theorem constructed_slice_layout
    (x1 z1 x2 z2 : Z) (types : option (list string)) (chunks : list NbtChunk)
    (ws : WorldSlice) :
  __init__ x1 z1 x2 z2 types chunks = Return ws ->
  rect ws = (x1, z1, x2 - x1, z2 - z1) /\
  chunkRect ws = (x1 / 16, z1 / 16, ceil_div16 (x2 - x1), ceil_div16 (z2 - z1)) /\
  (16 * (ceil_div16 (x2 - x1) - 1) < x2 - x1 <= 16 * ceil_div16 (x2 - x1)) /\
  length (sections ws) = Z.to_nat (ceil_div16 (x2 - x1)) /\
  (forall col, col ∈ sections ws ->
     length col = Z.to_nat (ceil_div16 (z2 - z1)) /\
     forall cell, cell ∈ col -> length cell = 16%nat).
Proof.
  intros Hinit.
  apply init_Return in Hinit as (Hrect & Hr & _ & Hload).
  apply load_sections_shaped in Hload as [Hlen Hall].
  split; [exact Hr|]. split; [exact Hrect|].
  split; [apply ceil_div16_bounds|]. split; [exact Hlen|].
  intros col Hcol. rewrite Forall_forall in Hall.
  destruct (Hall col Hcol) as [Hc Hcells]. split; [exact Hc|].
  intros cell Hcell. rewrite Forall_forall in Hcells. by apply Hcells.
Qed.

(** X15. Construction cannot succeed on a tree with fewer chunks than the
    chunk rect has: the loader indexes the chunk list up to
    [cxl * czl - 1], and the missing chunk raises. *)
Theorem construction_needs_every_chunk
    (x1 z1 x2 z2 : Z) (types : option (list string)) (chunks : list NbtChunk) :
  0 < ceil_div16 (x2 - x1) -> 0 < ceil_div16 (z2 - z1) ->
  Z.of_nat (length chunks) < ceil_div16 (x2 - x1) * ceil_div16 (z2 - z1) ->
  exists e, __init__ x1 z1 x2 z2 types chunks = Raise e.
Proof.
  intros Hx Hz Hfew.
  destruct (__init__ x1 z1 x2 z2 types chunks) as [ws|e] eqn:E; [|eauto].
  exfalso. apply init_Return in E as (_ & _ & _ & Hload).
  unfold load_sections in Hload.
  destruct (for_chunks_all_chunks _ _ _ _ _ _ Hload
              (ceil_div16 (x2 - x1) - 1) (ceil_div16 (z2 - z1) - 1))
    as (chunk & Hchunk); [lia|lia|].
  rewrite py_getitem_outside in Hchunk; [discriminate|].
  left.
  replace (ceil_div16 (x2 - x1) - 1 + (ceil_div16 (z2 - z1) - 1) * ceil_div16 (x2 - x1))
    with (ceil_div16 (x2 - x1) * ceil_div16 (z2 - z1) - 1) by ring.
  lia.
Qed.

Lemma range_split (lo hi c : Z) :
  lo <= c < hi -> range lo hi = range lo c ++ c :: range (c + 1) hi.
Proof.
  intros Hc. unfold range.
  replace (hi - lo) with ((c - lo) + (hi - c)) by lia.
  rewrite seqZ_app by lia. f_equal.
  replace (lo + (c - lo)) with c by lia.
  rewrite seqZ_cons by lia. f_equal. f_equal; lia.
Qed.

Lemma foldM_split {A S} (f : S -> A -> result S) (l1 l2 : list A) (a : A) s s' :
  foldM f (l1 ++ a :: l2) s = Return s' ->
  exists s1 s2, foldM f l1 s = Return s1 /\ f s1 a = Return s2 /\
                foldM f l2 s2 = Return s'.
Proof.
  rewrite foldM_app. destruct (foldM f l1 s) as [s1|]; simpl; [|discriminate].
  destruct (f s1 a) as [s2|] eqn:E; simpl; [|discriminate]. eauto.
Qed.

(** Storing a section keeps any other slot as it is. *)
Lemma set_section_keeps_slot cx cz n v0 (secs : sections_t) x z y v secs' :
  0 <= cx -> 0 <= cz -> 0 <= x -> 0 <= z ->
  (x = cx -> z = cz -> py_norm 16 y <> Some n) ->
  slot_holds cx cz n v0 secs ->
  set_section secs x z y v = Return secs' ->
  slot_holds cx cz n v0 secs'.
Proof.
  intros Hcx Hcz Hx Hz Hother (col & cell & Hcol & Hcell & Hlen & Hv) Hset.
  apply set_section_Return in Hset
    as (ix & iz & iy & col0 & cell0 & Hix & Hcol0 & Hiz & Hcell0 & Hiy & ->).
  apply py_norm_Some_nonneg in Hix; [|exact Hx].
  apply py_norm_Some_nonneg in Hiz; [|exact Hz].
  subst ix iz. unfold slot_holds.
  destruct (decide (x = cx)) as [->|Hnx].
  - rewrite Hcol in Hcol0. injection Hcol0 as <-.
    rewrite list_lookup_insert_eq by (by eapply lookup_lt_Some).
    destruct (decide (z = cz)) as [->|Hnz].
    + rewrite Hcell in Hcell0. injection Hcell0 as <-.
      exists (<[Z.to_nat cz := <[iy := v]> cell]> col), (<[iy := v]> cell).
      split; [reflexivity|].
      split; [apply list_lookup_insert_eq; by eapply lookup_lt_Some|].
      split; [by rewrite length_insert|].
      rewrite list_lookup_insert_ne; [exact Hv|].
      intros ->. rewrite Hlen in Hiy. change (Z.of_nat 16) with 16 in Hiy.
      by apply (Hother eq_refl eq_refl).
    + exists (<[Z.to_nat z := <[iy := v]> cell0]> col), cell.
      split; [reflexivity|].
      split; [rewrite list_lookup_insert_ne; [exact Hcell|lia]|].
      split; assumption.
  - exists col, cell.
    split; [rewrite list_lookup_insert_ne; [exact Hcol|lia]|].
    repeat split; assumption.
Qed.

(** Storing a section makes its slot hold it. *)
Lemma set_section_fills_slot nx nz (secs : sections_t) x z y v secs' n :
  0 <= x -> 0 <= z ->
  shaped nx nz secs ->
  py_norm 16 y = Some n ->
  set_section secs x z y v = Return secs' ->
  slot_holds x z n v secs'.
Proof.
  intros Hx Hz [_ Hall] Hn Hset.
  apply set_section_Return in Hset
    as (ix & iz & iy & col & cell & Hix & Hcol & Hiz & Hcell & Hiy & ->).
  apply py_norm_Some_nonneg in Hix; [|exact Hx].
  apply py_norm_Some_nonneg in Hiz; [|exact Hz]. subst ix iz.
  pose proof (Forall_lookup_1 _ _ _ _ Hall Hcol) as [_ Hcells].
  pose proof (Forall_lookup_1 _ _ _ _ Hcells Hcell) as Hlen. simpl in Hlen.
  rewrite Hlen in Hiy. change (Z.of_nat 16) with 16 in Hiy.
  rewrite Hn in Hiy. injection Hiy as <-.
  exists (<[Z.to_nat z := <[n := v]> cell]> col), (<[n := v]> cell).
  split; [apply list_lookup_insert_eq; by eapply lookup_lt_Some|].
  split; [apply list_lookup_insert_eq; by eapply lookup_lt_Some|].
  split; [by rewrite length_insert|].
  apply list_lookup_insert_eq. apply py_norm_Some_lt in Hn. lia.
Qed.

Lemma load_section_keeps_slot cx cz n v0 (secs : sections_t) x z section secs' :
  0 <= cx -> 0 <= cz -> 0 <= x -> 0 <= z ->
  (x = cx -> z = cz -> no_block_states section = false ->
   py_norm 16 (Y section) <> Some n) ->
  slot_holds cx cz n v0 secs ->
  load_section x z secs section = Return secs' ->
  slot_holds cx cz n v0 secs'.
Proof.
  intros Hcx Hcz Hx Hz Hother Hslot. unfold load_section.
  destruct (no_block_states section) eqn:Hdata; [by intros [= <-]|].
  destruct (Palette section) as [p|]; simpl; [|discriminate].
  destruct (BitArray _ _ _) as [ba|]; simpl; [|discriminate].
  apply set_section_keeps_slot; auto.
Qed.

Lemma sections_body_shaped nx nz x z (l : list NbtSection) (secs secs' : sections_t) :
  shaped nx nz secs -> foldM (load_section x z) l secs = Return secs' ->
  shaped nx nz secs'.
Proof.
  intros Hs. apply foldM_inv; [|exact Hs].
  intros s1 sec s1' _ Hs1. by apply load_section_shaped.
Qed.

Lemma zbody_shaped nx nz cxl chunks x z (s s' : sections_t) :
  shaped nx nz s -> zbody cxl chunks x s z = Return s' -> shaped nx nz s'.
Proof.
  unfold zbody. intros Hs.
  destruct (py_getitem chunks _) as [chunk|]; simpl; [|discriminate].
  by apply sections_body_shaped.
Qed.

Lemma zbody_keeps_slot cx cz n v0 cxl chunks x z (s s' : sections_t) :
  0 <= cx -> 0 <= cz -> 0 <= x -> 0 <= z -> x <> cx \/ z <> cz ->
  slot_holds cx cz n v0 s -> zbody cxl chunks x s z = Return s' ->
  slot_holds cx cz n v0 s'.
Proof.
  unfold zbody. intros Hcx Hcz Hx Hz Hne Hs.
  destruct (py_getitem chunks _) as [chunk|]; simpl; [|discriminate].
  apply foldM_inv; [|exact Hs].
  intros s1 sec s1' _ Hs1. apply load_section_keeps_slot; auto.
  intros -> ->. destruct Hne; congruence.
Qed.

(** The last section with block states that a chunk lists for a slot is
    the one the loader leaves in that slot. *)
Lemma load_sections_fills_slot cxl czl chunks (secs : sections_t) cx cz chunk
    pre section post p ba n :
  0 <= cx < cxl -> 0 <= cz < czl ->
  py_getitem chunks (cx + cz * cxl) = Return chunk ->
  Sections chunk = pre ++ section :: post ->
  no_block_states section = false ->
  Palette section = Some p ->
  BitArray (bitsPerEntry_of (Z.of_nat (length p))) (16 * 16 * 16)
           (default [] (BlockStates section)) = Return ba ->
  py_norm 16 (Y section) = Some n ->
  (forall s, s ∈ post -> no_block_states s = false ->
             py_norm 16 (Y s) <> Some n) ->
  load_sections cxl czl chunks (init_sections cxl czl) = Return secs ->
  slot_holds cx cz n (Some (mkCachedSection p ba)) secs.
Proof.
  intros Hcx Hcz Hchunk Hsplit Hdata Hpal Hba Hn Hpost Hrun.
  unfold load_sections, for_chunks in Hrun.
  change (foldM (fun s x => foldM (zbody cxl chunks x) (range 0 czl) s)
                (range 0 cxl) (init_sections cxl czl) = Return secs) in Hrun.
  rewrite (range_split 0 cxl cx) in Hrun by lia.
  apply foldM_split in Hrun as (s1 & s2 & Hbefore & Hcol & Hafter).
  assert (Hs1 : shaped (Z.to_nat cxl) (Z.to_nat czl) s1).
  { revert Hbefore. apply foldM_inv; [|apply init_sections_shaped].
    intros s x s' _ Hs. apply foldM_inv; [|exact Hs].
    intros s3 z s3' _ Hs3. by apply zbody_shaped. }
  cut (slot_holds cx cz n (Some (mkCachedSection p ba)) s2).
  { intros Hs2. revert Hafter. apply foldM_inv; [|exact Hs2].
    intros s x s' Hx Hs. apply elem_of_range in Hx.
    apply foldM_inv; [|exact Hs].
    intros s3 z s3' Hz Hs3. apply elem_of_range in Hz.
    apply zbody_keeps_slot; auto; lia. }
  rewrite (range_split 0 czl cz) in Hcol by lia.
  apply foldM_split in Hcol as (s3 & s4 & Hzbefore & Hcell & Hzafter).
  assert (Hs3 : shaped (Z.to_nat cxl) (Z.to_nat czl) s3).
  { revert Hzbefore. apply foldM_inv; [|exact Hs1].
    intros s z s' _ Hs. by apply zbody_shaped. }
  cut (slot_holds cx cz n (Some (mkCachedSection p ba)) s4).
  { intros Hs4. revert Hzafter. apply foldM_inv; [|exact Hs4].
    intros s z s' Hz Hs. apply elem_of_range in Hz.
    apply zbody_keeps_slot; auto; lia. }
  unfold zbody in Hcell. rewrite Hchunk in Hcell. simpl in Hcell.
  rewrite Hsplit in Hcell.
  apply foldM_split in Hcell as (s5 & s6 & Hpre & Hsec & Hrest).
  assert (Hs5 : shaped (Z.to_nat cxl) (Z.to_nat czl) s5)
    by (eapply sections_body_shaped; eauto).
  cut (slot_holds cx cz n (Some (mkCachedSection p ba)) s6).
  { intros Hs6. revert Hrest. apply foldM_inv; [|exact Hs6].
    intros s sec s' Hin Hs.
    apply load_section_keeps_slot; auto; try lia;
      try (intros _ _; by apply Hpost). }
  unfold load_section in Hsec. rewrite Hdata, Hpal in Hsec. simpl in Hsec.
  rewrite Hba in Hsec. simpl in Hsec.
  eapply set_section_fills_slot; eauto; lia.
Qed.

(** X16. Reading back what the loader stored.  Take a coordinate inside
    the chunk rect; in its chunk, let [section] be the last section with
    block states whose [Y] resolves to the queried slot, with palette [p]
    and bit array [ba].  Then the query decodes [ba] at
    [(y mod 16) * 256 + (z mod 16) * 16 + x mod 16] and returns that entry
    of [p]; [getBlockAt] returns its name. *)
Theorem stored_section_is_read
    (x1 z1 x2 z2 : Z) (types : option (list string)) (chunks : list NbtChunk)
    (ws : WorldSlice) (x y z : Z) (chunk : NbtChunk)
    (pre post : list NbtSection) (section : NbtSection)
    (p : list BlockCompound) (ba : bitarray) (n : nat) (idx : Z)
    (block : BlockCompound) :
  __init__ x1 z1 x2 z2 types chunks = Return ws ->
  let cxl := ceil_div16 (x2 - x1) in
  let czl := ceil_div16 (z2 - z1) in
  let chunkX := x / 16 - x1 / 16 in
  let chunkZ := z / 16 - z1 / 16 in
  0 <= chunkX < cxl -> 0 <= chunkZ < czl ->
  py_getitem chunks (chunkX + chunkZ * cxl) = Return chunk ->
  Sections chunk = pre ++ section :: post ->
  no_block_states section = false ->
  Palette section = Some p ->
  BitArray (bitsPerEntry_of (Z.of_nat (length p))) (16 * 16 * 16)
           (default [] (BlockStates section)) = Return ba ->
  py_norm 16 (y / 16) = Some n ->
  py_norm 16 (Y section) = Some n ->
  (forall s, s ∈ post -> no_block_states s = false ->
             py_norm 16 (Y s) <> Some n) ->
  getAt ba ((y mod 16) * 16 * 16 + (z mod 16) * 16 + x mod 16) = Return idx ->
  0 <= idx -> p !! Z.to_nat idx = Some block ->
  getBlockCompoundAt ws x y z = Return (Some block) /\
  getBlockAt ws x y z = Return (Name block).
Proof.
  intros Hinit cxl czl chunkX chunkZ Hx Hz Hchunk Hsplit Hdata Hpal Hba Hn HY
    Hpost Hget Hidx Hblock.
  apply init_Return in Hinit as (Hrect & _ & _ & Hload).
  pose proof (load_sections_fills_slot _ _ _ _ _ _ _ _ _ _ _ _ _
                Hx Hz Hchunk Hsplit Hdata Hpal Hba HY Hpost Hload)
    as (col & cell & Hcol & Hcell & Hlen & Hslot).
  assert (H : getBlockCompoundAt ws x y z = Return (Some block)).
  { unfold getBlockCompoundAt. rewrite Hrect. fold chunkX chunkZ.
    unfold get_section.
    rewrite (py_getitem_in_range _ _ _ (proj1 Hx) Hcol). simpl.
    rewrite (py_getitem_in_range _ _ _ (proj1 Hz) Hcell). simpl.
    unfold py_getitem at 1. rewrite Hlen. change (Z.of_nat 16) with 16.
    rewrite Hn, Hslot. simpl. rewrite Hget. simpl.
    rewrite (py_getitem_in_range _ _ _ Hidx Hblock). reflexivity. }
  split; [exact H|]. unfold getBlockAt. by rewrite H.
Qed.

(** *** Height maps *)

Lemma np_setitem2_Return (a : list (list Z)) i j v a' :
  np_setitem2 a i j v = Return a' ->
  exists r c row,
    py_norm (Z.of_nat (length a)) i = Some r /\ a !! r = Some row /\
    py_norm (Z.of_nat (length row)) j = Some c /\
    a' = <[r := <[c := v]> row]> a.
Proof.
  unfold np_setitem2.
  destruct (py_norm (Z.of_nat (length a)) i) as [r|]; [|discriminate].
  destruct (a !! r) as [row|] eqn:Hrow; [|discriminate].
  destruct (py_norm (Z.of_nat (length row)) j) as [c|] eqn:Hc; [|discriminate].
  intros [= <-]. eauto 10.
Qed.

(** A store either leaves the grid alone or writes one cell. *)
Lemma store_sample_Return (hm : list (list Z)) i j smp hm' :
  store_sample hm i j smp = Return hm' ->
  hm' = hm \/
  exists v r c row,
    smp = Return v /\
    py_norm (Z.of_nat (length hm)) i = Some r /\ hm !! r = Some row /\
    py_norm (Z.of_nat (length row)) j = Some c /\
    hm' = <[r := <[c := v]> row]> hm.
Proof.
  unfold store_sample. destruct smp as [v|e].
  - destruct (np_setitem2 hm i j v) as [a'|e] eqn:E.
    + intros [= <-]. right. apply np_setitem2_Return in E as (r & c & row & ?).
      exists v, r, c, row. tauto.
    + destruct e; try discriminate. intros [= <-]. by left.
  - destruct e; try discriminate. intros [= <-]. by left.
Qed.

Lemma store_sample_shaped R C (hm : list (list Z)) i j smp hm' :
  grid_shaped R C hm -> store_sample hm i j smp = Return hm' ->
  grid_shaped R C hm'.
Proof.
  intros [Hlen Hall] H.
  apply store_sample_Return in H as [->|(v & r & c & row & _ & _ & Hrow & _ & ->)];
    [by split|].
  split; [by rewrite length_insert|].
  apply Forall_insert; [exact Hall|].
  rewrite length_insert. exact (Forall_lookup_1 _ _ _ _ Hall Hrow).
Qed.

(** A store aimed elsewhere leaves the cell [(a, b)] as it is. *)
Lemma store_sample_other R C (hm : list (list Z)) i j smp hm' (a b : nat) :
  grid_shaped R C hm -> store_sample hm i j smp = Return hm' ->
  py_norm (Z.of_nat R) i <> Some a \/ py_norm (Z.of_nat C) j <> Some b ->
  grid_at hm' a b = grid_at hm a b.
Proof.
  intros [Hlen Hall] H Hne.
  apply store_sample_Return in H
    as [->|(v & r & c & row & _ & Hr & Hrow & Hc & ->)]; [reflexivity|].
  pose proof (Forall_lookup_1 _ _ _ _ Hall Hrow) as Hrl. simpl in Hrl.
  rewrite Hlen in Hr. rewrite Hrl in Hc. unfold grid_at.
  destruct (decide (r = a)) as [->|Hra].
  - rewrite list_lookup_insert_eq by (by eapply lookup_lt_Some). rewrite Hrow.
    destruct (decide (c = b)) as [->|Hcb]; [destruct Hne; congruence|].
    by rewrite list_lookup_insert_ne.
  - by rewrite list_lookup_insert_ne.
Qed.

(** A store aimed at a cell inside the grid writes it. *)
Lemma store_sample_hit R C (hm : list (list Z)) i j v hm' :
  grid_shaped R C hm -> 0 <= i < Z.of_nat R -> 0 <= j < Z.of_nat C ->
  store_sample hm i j (Return v) = Return hm' ->
  grid_at hm' (Z.to_nat i) (Z.to_nat j) = Some v.
Proof.
  intros [Hlen Hall] Hi Hj H.
  assert (Hrow : exists row, hm !! Z.to_nat i = Some row).
  { apply lookup_lt_is_Some. lia. }
  destruct Hrow as [row Hrow].
  pose proof (Forall_lookup_1 _ _ _ _ Hall Hrow) as Hrl. simpl in Hrl.
  unfold store_sample, np_setitem2 in H.
  rewrite py_norm_in_range in H by lia. rewrite Hrow in H.
  rewrite py_norm_in_range in H by lia. injection H as <-.
  unfold grid_at. rewrite list_lookup_insert_eq by lia.
  apply list_lookup_insert_eq. lia.
Qed.

Lemma load_chunk_heightmap_shaped R C ro x z ba (hm hm' : list (list Z)) :
  grid_shaped R C hm -> load_chunk_heightmap ro x z ba hm = Return hm' ->
  grid_shaped R C hm'.
Proof.
  intros Hs. unfold load_chunk_heightmap.
  apply foldM_inv; [|exact Hs]. intros g cz g' _ Hg.
  apply foldM_inv; [|exact Hg]. intros g1 cx g1' _ Hg1.
  by apply store_sample_shaped.
Qed.

(** The destination index of a sample wraps only when it is negative, and
    then it lands within [ro] rows of the far edge. *)
Lemma wrapped_index_far (R : nat) (ro idx : Z) (a : nat) :
  0 <= ro -> - ro <= idx -> Z.of_nat a + ro < Z.of_nat R ->
  py_norm (Z.of_nat R) idx = Some a -> idx = Z.of_nat a.
Proof.
  intros Hro Hidx Ha Hn. unfold py_norm in Hn.
  destruct ((0 <=? idx) && (idx <? Z.of_nat R)) eqn:E1.
  - apply andb_prop in E1 as [? ?]. injection Hn as <-. lia.
  - destruct ((- Z.of_nat R <=? idx) && (idx <? 0)) eqn:E2; [|discriminate].
    apply andb_prop in E2 as [? ?]. injection Hn as <-. lia.
Qed.

(** A chunk none of whose samples is aimed at [(a, b)] leaves that cell. *)
Lemma load_chunk_heightmap_other R C ro x z ba (hm hm' : list (list Z)) (a b : nat) :
  grid_shaped R C hm ->
  (forall cx, 0 <= cx < 16 ->
     py_norm (Z.of_nat R) (- fst ro + x * 16 + cx) <> Some a) \/
  (forall cz, 0 <= cz < 16 ->
     py_norm (Z.of_nat C) (- snd ro + z * 16 + cz) <> Some b) ->
  load_chunk_heightmap ro x z ba hm = Return hm' ->
  grid_at hm' a b = grid_at hm a b.
Proof.
  intros Hs Hne. unfold load_chunk_heightmap. intros Hrun.
  pose (P := fun g : list (list Z) =>
               grid_shaped R C g /\ grid_at g a b = grid_at hm a b).
  cut (P hm'); [intros [_ H]; exact H|].
  revert Hrun. apply (foldM_inv P); [|by split].
  intros g cz g' Hcz Hg. apply elem_of_range in Hcz.
  apply (foldM_inv P); [|exact Hg].
  intros g1 cx g1' Hcx [Hg1 Hg1a] Hst. apply elem_of_range in Hcx.
  split; [by eapply store_sample_shaped|].
  rewrite <- Hg1a. eapply store_sample_other; eauto.
  destruct Hne as [Hne|Hne]; [left; apply Hne; lia|right; apply Hne; lia].
Qed.

(** The chunk that holds the sample for [(a, b)] writes it there. *)
Lemma load_chunk_heightmap_hit R C ro x z ba (hm hm' : list (list Z))
    (a b : nat) (cxw czw v : Z) :
  grid_shaped R C hm ->
  0 <= fst ro -> 0 <= snd ro -> 0 <= x -> 0 <= z ->
  0 <= cxw < 16 -> 0 <= czw < 16 ->
  Z.of_nat a = - fst ro + x * 16 + cxw ->
  Z.of_nat b = - snd ro + z * 16 + czw ->
  Z.of_nat a + fst ro < Z.of_nat R ->
  Z.of_nat b + snd ro < Z.of_nat C ->
  getAt ba (czw * 16 + cxw) = Return v ->
  load_chunk_heightmap ro x z ba hm = Return hm' ->
  grid_at hm' a b = Some v.
Proof.
  intros Hs Hro0 Hro1 Hx Hz Hcxw Hczw Ha Hb HaR HbC Hget. unfold load_chunk_heightmap.
  set (inner := fun (g : list (list Z)) cz =>
         foldM (fun g1 cx =>
                  store_sample g1 (- fst ro + x * 16 + cx) (- snd ro + z * 16 + cz)
                    (getAt ba (cz * 16 + cx))) (range 0 16) g).
  change (foldM inner (range 0 16) hm = Return hm' -> grid_at hm' a b = Some v).
  pose (P := fun g : list (list Z) => grid_shaped R C g /\ grid_at g a b = Some v).
  assert (Hinner_shaped : forall g cz g', grid_shaped R C g ->
            inner g cz = Return g' -> grid_shaped R C g').
  { intros g cz g' Hg. unfold inner. apply foldM_inv; [|exact Hg].
    intros g1 cx g1' _ Hg1. by apply store_sample_shaped. }
  rewrite (range_split 0 16 czw) by lia. intros Hrun.
  apply foldM_split in Hrun as (g1 & g2 & Hbefore & Hrow & Hafter).
  assert (Hg1 : grid_shaped R C g1).
  { revert Hbefore. apply foldM_inv; [|exact Hs]. intros; eauto. }
  cut (P g2).
  { intros Hg2. cut (P hm'); [intros [_ H]; exact H|].
    revert Hafter. apply (foldM_inv P); [|exact Hg2].
    intros g cz g' Hcz [Hg Hgv] Hin. apply elem_of_range in Hcz.
    split; [eauto|]. rewrite <- Hgv. revert Hin. unfold inner. intros Hin.
    pose (Q := fun g0 : list (list Z) =>
                 grid_shaped R C g0 /\ grid_at g0 a b = grid_at g a b).
    cut (Q g'); [intros [_ H]; exact H|].
    revert Hin. apply (foldM_inv Q); [|by split].
    intros g3 cx g3' Hcx [Hg3 Hg3a] Hst.
    split; [by eapply store_sample_shaped|].
    rewrite <- Hg3a. eapply store_sample_other; eauto. right.
    intros Hn. apply (wrapped_index_far _ (snd ro)) in Hn; lia. }
  unfold inner in Hrow. rewrite (range_split 0 16 cxw) in Hrow by lia.
  apply foldM_split in Hrow as (g3 & g4 & Hcbefore & Hcell & Hcafter).
  assert (Hg3 : grid_shaped R C g3).
  { revert Hcbefore. apply foldM_inv; [|exact Hg1].
    intros g cx g' _ Hg. by apply store_sample_shaped. }
  cut (P g4).
  { intros Hg4. revert Hcafter. apply (foldM_inv P); [|exact Hg4].
    intros g cx g' Hcx [Hg Hgv] Hst. apply elem_of_range in Hcx.
    split; [by eapply store_sample_shaped|].
    rewrite <- Hgv. eapply store_sample_other; eauto. left.
    intros Hn. apply (wrapped_index_far _ (fst ro)) in Hn; lia. }
  split; [by eapply store_sample_shaped|].
  rewrite Hget in Hcell.
  rewrite <- (Nat2Z.id a), <- (Nat2Z.id b). rewrite Ha, Hb.
  eapply store_sample_hit; eauto; lia.
Qed.

Lemma tstep_Return ro x z hms (maps maps' : gmap string (list (list Z))) t :
  tstep ro x z hms maps t = Return maps' ->
  exists raw ba g g',
    hms !! t = Some raw /\ BitArray 9 (16 * 16) raw = Return ba /\
    maps !! t = Some g /\ load_chunk_heightmap ro x z ba g = Return g' /\
    maps' = <[t := g']> maps.
Proof.
  unfold tstep, dict_get.
  destruct (hms !! t) as [raw|]; simpl; [|discriminate].
  destruct (BitArray 9 (16 * 16) raw) as [ba|] eqn:Hba; simpl; [|discriminate].
  destruct (maps !! t) as [g|] eqn:Hg; simpl; [|discriminate].
  destruct (load_chunk_heightmap ro x z ba g) as [g'|] eqn:Hl; simpl; [|discriminate].
  intros [= <-]. eauto 10.
Qed.

Section OneCell.

(** One height map [nm] of [R] rows and [C] columns, and one of its cells. *)
Variables (R C : nat) (nm : string) (a b : nat).

Abbreviation has_grid := (worldLoader.has_grid R C nm).
Abbreviation cell_reads := (worldLoader.cell_reads R C nm a b).
Abbreviation misses := (worldLoader.misses R C a b).

Lemma cell_reads_has_grid v maps : cell_reads v maps -> has_grid maps.
Proof. intros (g & ? & ? & _). exists g. eauto. Qed.

Lemma tstep_has_grid ro x z hms maps maps' t :
  has_grid maps -> tstep ro x z hms maps t = Return maps' -> has_grid maps'.
Proof.
  intros (g & Hg & Hs) H.
  apply tstep_Return in H as (raw & ba & g0 & g' & _ & _ & Hg0 & Hl & ->).
  destruct (decide (t = nm)) as [->|Hne].
  - rewrite Hg in Hg0. injection Hg0 as <-.
    exists g'. rewrite lookup_insert_eq. split; [reflexivity|].
    by eapply load_chunk_heightmap_shaped.
  - exists g. by rewrite lookup_insert_ne.
Qed.

Lemma tstep_absent ro x z hms (maps maps' : gmap string (list (list Z))) t :
  maps !! nm = None -> tstep ro x z hms maps t = Return maps' ->
  maps' !! nm = None.
Proof.
  intros Hn H.
  apply tstep_Return in H as (raw & ba & g0 & g' & _ & _ & Hg0 & _ & ->).
  rewrite lookup_insert_ne; [exact Hn|]. congruence.
Qed.

Lemma tstep_keeps ro x z hms maps maps' t v0 :
  misses ro x z ->
  cell_reads v0 maps -> tstep ro x z hms maps t = Return maps' ->
  cell_reads v0 maps'.
Proof.
  intros Hmiss (g & Hg & Hs & Hv) H.
  apply tstep_Return in H as (raw & ba & g0 & g' & _ & _ & Hg0 & Hl & ->).
  destruct (decide (t = nm)) as [->|Hne].
  - rewrite Hg in Hg0. injection Hg0 as <-.
    exists g'. rewrite lookup_insert_eq. split; [reflexivity|].
    split; [by eapply load_chunk_heightmap_shaped|].
    rewrite <- Hv. by eapply load_chunk_heightmap_other.
  - exists g. by rewrite lookup_insert_ne.
Qed.

Lemma types_has_grid types ro x z hms maps maps' :
  has_grid maps -> load_chunk_heightmaps types ro x z hms maps = Return maps' ->
  has_grid maps'.
Proof.
  intros Hg. apply (foldM_inv has_grid); [|exact Hg].
  intros m t m' _ Hm. by apply tstep_has_grid.
Qed.

Lemma types_absent types ro x z hms (maps maps' : gmap string (list (list Z))) :
  maps !! nm = None ->
  load_chunk_heightmaps types ro x z hms maps = Return maps' ->
  maps' !! nm = None.
Proof.
  intros Hn. apply (foldM_inv (fun m : gmap string (list (list Z)) => m !! nm = None));
    [|exact Hn].
  intros m t m' _ Hm. by apply tstep_absent.
Qed.

Lemma types_keeps types ro x z hms maps maps' v0 :
  misses ro x z ->
  cell_reads v0 maps ->
  load_chunk_heightmaps types ro x z hms maps = Return maps' ->
  cell_reads v0 maps'.
Proof.
  intros Hmiss Hv. apply (foldM_inv (cell_reads v0)); [|exact Hv].
  intros m t m' _ Hm. by apply tstep_keeps.
Qed.

(** The chunk that holds the sample writes it, whatever was there. *)
Lemma types_hit types ro x z hms maps maps' raw ba cxw czw v :
  nm ∈ types ->
  has_grid maps ->
  hms !! nm = Some raw -> BitArray 9 (16 * 16) raw = Return ba ->
  0 <= fst ro -> 0 <= snd ro -> 0 <= x -> 0 <= z ->
  0 <= cxw < 16 -> 0 <= czw < 16 ->
  Z.of_nat a = - fst ro + x * 16 + cxw ->
  Z.of_nat b = - snd ro + z * 16 + czw ->
  Z.of_nat a + fst ro < Z.of_nat R ->
  Z.of_nat b + snd ro < Z.of_nat C ->
  getAt ba (czw * 16 + cxw) = Return v ->
  load_chunk_heightmaps types ro x z hms maps = Return maps' ->
  cell_reads (Some v) maps'.
Proof.
  intros Hin Hgrid Hraw Hba Hro0 Hro1 Hx Hz Hcxw Hczw Ha Hb HaR HbC Hget.
  assert (Hstep : forall m t m', has_grid m -> t = nm ->
             tstep ro x z hms m t = Return m' -> cell_reads (Some v) m').
  { intros m t m' (g & Hg & Hs) -> H.
    apply tstep_Return in H as (raw' & ba' & g0 & g' & Hraw' & Hba' & Hg0 & Hl & ->).
    rewrite Hraw in Hraw'. injection Hraw' as <-.
    rewrite Hba in Hba'. injection Hba' as <-.
    rewrite Hg in Hg0. injection Hg0 as <-.
    exists g'. rewrite lookup_insert_eq. split; [reflexivity|].
    split; [by eapply load_chunk_heightmap_shaped|].
    apply (load_chunk_heightmap_hit R C ro x z ba g g' a b cxw czw v); assumption. }
  apply list_elem_of_split in Hin as (l1 & l2 & ->).
  unfold load_chunk_heightmaps.
  change (foldM (tstep ro x z hms) (l1 ++ nm :: l2) maps = Return maps' ->
          cell_reads (Some v) maps').
  intros Hrun. apply foldM_split in Hrun as (m1 & m2 & Hpre & Hnm & Hpost).
  assert (Hm1 : has_grid m1).
  { revert Hpre. apply (foldM_inv has_grid); [|exact Hgrid].
    intros m t m' _ Hm. by apply tstep_has_grid. }
  revert Hpost.
  apply (foldM_inv (cell_reads (Some v))); [|exact (Hstep m1 nm m2 Hm1 eq_refl Hnm)].
  intros m t m' _ Hm Ht.
  destruct (decide (t = nm)) as [->|Hne].
  - apply (Hstep m nm m'); [by eapply cell_reads_has_grid|reflexivity|exact Ht].
  - destruct Hm as (g & Hg & Hs & Hv).
    apply tstep_Return in Ht as (_ & _ & _ & g' & _ & _ & _ & _ & ->).
    exists g. by rewrite lookup_insert_ne.
Qed.

Lemma hbody_has_grid types ro cxl chunks x z maps maps' :
  has_grid maps -> hbody types ro cxl chunks x maps z = Return maps' ->
  has_grid maps'.
Proof.
  unfold hbody. intros Hg.
  destruct (py_getitem chunks _) as [chunk|]; simpl; [|discriminate].
  by apply types_has_grid.
Qed.

Lemma hbody_keeps types ro cxl chunks x z maps maps' v0 :
  misses ro x z -> cell_reads v0 maps ->
  hbody types ro cxl chunks x maps z = Return maps' -> cell_reads v0 maps'.
Proof.
  unfold hbody. intros Hmiss Hv.
  destruct (py_getitem chunks _) as [chunk|]; simpl; [|discriminate].
  by apply types_keeps.
Qed.

(** Another chunk column, or another chunk row, misses the cell. *)
Lemma other_chunk_misses ro x z xw zw cxw czw :
  0 <= fst ro -> 0 <= snd ro -> 0 <= x -> 0 <= z ->
  0 <= cxw < 16 -> 0 <= czw < 16 ->
  Z.of_nat a = - fst ro + xw * 16 + cxw ->
  Z.of_nat b = - snd ro + zw * 16 + czw ->
  Z.of_nat a + fst ro < Z.of_nat R ->
  Z.of_nat b + snd ro < Z.of_nat C ->
  x <> xw \/ z <> zw ->
  misses ro x z.
Proof.
  intros Hro0 Hro1 Hx Hz Hcxw Hczw Ha Hb HaR HbC [Hne|Hne]; [left|right].
  - intros cx Hcx Hn. apply (wrapped_index_far _ (fst ro)) in Hn; lia.
  - intros cz Hcz Hn. apply (wrapped_index_far _ (snd ro)) in Hn; lia.
Qed.

Lemma load_heightmaps_hit types ro cxl czl chunks maps0 maps
    xw zw chunk raw ba cxw czw v :
  nm ∈ types ->
  has_grid maps0 ->
  0 <= xw < cxl -> 0 <= zw < czl ->
  py_getitem chunks (xw + zw * cxl) = Return chunk ->
  Heightmaps chunk !! nm = Some raw -> BitArray 9 (16 * 16) raw = Return ba ->
  0 <= fst ro -> 0 <= snd ro ->
  0 <= cxw < 16 -> 0 <= czw < 16 ->
  Z.of_nat a = - fst ro + xw * 16 + cxw ->
  Z.of_nat b = - snd ro + zw * 16 + czw ->
  Z.of_nat a + fst ro < Z.of_nat R ->
  Z.of_nat b + snd ro < Z.of_nat C ->
  getAt ba (czw * 16 + cxw) = Return v ->
  load_heightmaps types ro cxl czl chunks maps0 = Return maps ->
  cell_reads (Some v) maps.
Proof.
  intros Hin Hgrid Hxw Hzw Hchunk Hraw Hba Hro0 Hro1 Hcxw Hczw Ha Hb HaR HbC Hget.
  unfold load_heightmaps, for_chunks.
  change (foldM (fun m x => foldM (hbody types ro cxl chunks x) (range 0 czl) m)
                (range 0 cxl) maps0 = Return maps -> cell_reads (Some v) maps).
  rewrite (range_split 0 cxl xw) by lia. intros Hrun.
  apply foldM_split in Hrun as (m1 & m2 & Hbefore & Hcol & Hafter).
  assert (Hm1 : has_grid m1).
  { revert Hbefore. apply (foldM_inv has_grid); [|exact Hgrid].
    intros m x m' _ Hm. apply (foldM_inv has_grid); [|exact Hm].
    intros m3 z m3' _ Hm3. by apply hbody_has_grid. }
  cut (cell_reads (Some v) m2).
  { intros Hm2. revert Hafter. apply (foldM_inv (cell_reads (Some v))); [|exact Hm2].
    intros m x m' Hx Hm. apply elem_of_range in Hx.
    apply (foldM_inv (cell_reads (Some v))); [|exact Hm].
    intros m3 z m3' Hz Hm3. apply elem_of_range in Hz.
    apply hbody_keeps; [|exact Hm3].
    apply (other_chunk_misses ro x z xw zw cxw czw); auto; lia. }
  rewrite (range_split 0 czl zw) in Hcol by lia.
  apply foldM_split in Hcol as (m3 & m4 & Hzbefore & Hcell & Hzafter).
  assert (Hm3 : has_grid m3).
  { revert Hzbefore. apply (foldM_inv has_grid); [|exact Hm1].
    intros m z m' _ Hm. by apply hbody_has_grid. }
  cut (cell_reads (Some v) m4).
  { intros Hm4. revert Hzafter. apply (foldM_inv (cell_reads (Some v))); [|exact Hm4].
    intros m z m' Hz Hm. apply elem_of_range in Hz.
    apply hbody_keeps; [|exact Hm].
    apply (other_chunk_misses ro xw z xw zw cxw czw); auto; lia. }
  unfold hbody in Hcell. rewrite Hchunk in Hcell. simpl in Hcell.
  apply (types_hit types ro xw zw (Heightmaps chunk) m3 m4 raw ba cxw czw v);
    auto; lia.
Qed.

End OneCell.

Lemma np_zeros_shaped r c g :
  np_zeros r c = Return g -> grid_shaped (Z.to_nat r) (Z.to_nat c) g.
Proof.
  unfold np_zeros. destruct ((r <? 0) || (c <? 0)); [discriminate|].
  intros [= <-]. split; [apply length_replicate|].
  apply Forall_replicate, length_replicate.
Qed.

Lemma init_heightmaps_fold r c (l : list string) :
  forall maps0 maps : gmap string (list (list Z)),
  foldM (fun maps hmName =>
           rbind (np_zeros r c) (fun a => Return (<[hmName := a]> maps)))
        l maps0 = Return maps ->
  forall nm,
    (nm ∈ l -> worldLoader.has_grid (Z.to_nat r) (Z.to_nat c) nm maps) /\
    (nm ∉ l -> maps !! nm = maps0 !! nm).
Proof.
  induction l as [|t l IH]; intros maps0 maps Hrun nm.
  - injection Hrun as <-. split; [intros H; by apply elem_of_nil in H|done].
  - simpl in Hrun. destruct (np_zeros r c) as [zeros|] eqn:Hz; simpl in Hrun;
      [|discriminate].
    destruct (IH _ _ Hrun nm) as [Hin Hout]. split.
    + intros Hnm. destruct (decide (nm ∈ l)) as [Hl|Hl]; [by apply Hin|].
      apply elem_of_cons in Hnm as [->|Hnm]; [|contradiction].
      exists zeros. rewrite (Hout Hl), lookup_insert_eq.
      split; [reflexivity|by apply np_zeros_shaped].
    + intros Hnm. apply not_elem_of_cons in Hnm as [Hne Hl].
      rewrite (Hout Hl). by rewrite lookup_insert_ne.
Qed.

(** X17. Every requested height-map type gets a grid of
    [(x2 - x1 + 1)] rows and [(z2 - z1 + 1)] columns, and no other key is
    present. *)
Theorem heightmaps_layout
    (x1 z1 x2 z2 : Z) (types : option (list string)) (chunks : list NbtChunk)
    (ws : WorldSlice) (nm : string) :
  __init__ x1 z1 x2 z2 types chunks = Return ws ->
  (nm ∈ default default_heightmapTypes types ->
   exists g, heightmaps ws !! nm = Some g /\
             length g = Z.to_nat (x2 - x1 + 1) /\
             forall row, row ∈ g -> length row = Z.to_nat (z2 - z1 + 1)) /\
  (nm ∉ default default_heightmapTypes types -> heightmaps ws !! nm = None).
Proof.
  intros Hinit.
  apply init_Return_heightmaps in Hinit as (_ & maps0 & Hinit0 & Hload).
  unfold init_heightmaps in Hinit0.
  destruct (init_heightmaps_fold _ _ _ _ _ Hinit0 nm) as [Hin Hout].
  unfold load_heightmaps in Hload. split.
  - intros Hnm.
    assert (Hg : worldLoader.has_grid (Z.to_nat (x2 - x1 + 1))
                   (Z.to_nat (z2 - z1 + 1)) nm (heightmaps ws)).
    { revert Hload. apply (for_chunks_inv (worldLoader.has_grid _ _ nm));
        [|by apply Hin].
      intros x z chunk m m' _ _ _ Hm. by apply types_has_grid. }
    destruct Hg as (g & Hg & Hlen & Hall). exists g.
    split; [exact Hg|]. split; [exact Hlen|].
    intros row Hrow. rewrite Forall_forall in Hall. by apply Hall.
  - intros Hnm. revert Hload.
    apply (for_chunks_inv (fun m : gmap string (list (list Z)) => m !! nm = None)).
    + intros x z chunk m m' _ _ _ Hm. by apply types_absent.
    + rewrite (Hout Hnm). apply lookup_empty.
Qed.

(** X18. What a height map holds.  Take a requested type [nm] and a
    column [(x, z)] of the region whose distance to the far edges is at
    least the offset of the origin within its chunk, and whose chunk is in
    the chunk rect.  Then cell [(x - x1, z - z1)] of the grid holds the
    sample that the chunk's packed height map gives at
    [(z mod 16) * 16 + x mod 16], and [heightAt] of [example.py] returns
    it. *)
Theorem heightmap_cell_holds_sample
    (x1 z1 x2 z2 : Z) (types : option (list string)) (chunks : list NbtChunk)
    (ws : WorldSlice) (nm : string) (x z : Z) (chunk : NbtChunk)
    (raw : list Z) (ba : bitarray) (v : Z) :
  __init__ x1 z1 x2 z2 types chunks = Return ws ->
  nm ∈ default default_heightmapTypes types ->
  x1 <= x -> z1 <= z ->
  x + x1 mod 16 <= x2 -> z + z1 mod 16 <= z2 ->
  x / 16 - x1 / 16 < ceil_div16 (x2 - x1) ->
  z / 16 - z1 / 16 < ceil_div16 (z2 - z1) ->
  py_getitem chunks
    ((x / 16 - x1 / 16) + (z / 16 - z1 / 16) * ceil_div16 (x2 - x1)) = Return chunk ->
  Heightmaps chunk !! nm = Some raw ->
  BitArray 9 (16 * 16) raw = Return ba ->
  getAt ba ((z mod 16) * 16 + x mod 16) = Return v ->
  exists g,
    heightmaps ws !! nm = Some g /\
    grid_at g (Z.to_nat (x - x1)) (Z.to_nat (z - z1)) = Some v /\
    example.heightAt g (rect ws) x z = Return v.
Proof.
  intros Hinit Hnm Hx Hz Hxfar Hzfar Hcx Hcz Hchunk Hraw Hba Hget.
  pose proof (init_Return _ _ _ _ _ _ _ Hinit) as (_ & Hrect & _ & _).
  apply init_Return_heightmaps in Hinit as (_ & maps0 & Hinit0 & Hload).
  unfold init_heightmaps in Hinit0.
  destruct (init_heightmaps_fold _ _ _ _ _ Hinit0 nm) as [Hin _].
  pose proof (Z.div_mod x 16 ltac:(lia)) as Hdx.
  pose proof (Z.div_mod x1 16 ltac:(lia)) as Hdx1.
  pose proof (Z.div_mod z 16 ltac:(lia)) as Hdz.
  pose proof (Z.div_mod z1 16 ltac:(lia)) as Hdz1.
  pose proof (Z.mod_pos_bound x 16 ltac:(lia)) as Hmx.
  pose proof (Z.mod_pos_bound x1 16 ltac:(lia)) as Hmx1.
  pose proof (Z.mod_pos_bound z 16 ltac:(lia)) as Hmz.
  pose proof (Z.mod_pos_bound z1 16 ltac:(lia)) as Hmz1.
  pose proof (Z.div_le_mono x1 x 16 ltac:(lia) Hx) as Hqx.
  pose proof (Z.div_le_mono z1 z 16 ltac:(lia) Hz) as Hqz.
  destruct (load_heightmaps_hit
              (Z.to_nat (x2 - x1 + 1)) (Z.to_nat (z2 - z1 + 1)) nm
              (Z.to_nat (x - x1)) (Z.to_nat (z - z1))
              (default default_heightmapTypes types) (x1 mod 16, z1 mod 16)
              (ceil_div16 (x2 - x1)) (ceil_div16 (z2 - z1)) chunks maps0
              (heightmaps ws) (x / 16 - x1 / 16) (z / 16 - z1 / 16)
              chunk raw ba (x mod 16) (z mod 16) v)
    as (g & Hg & Hs & Hv); simpl; auto; try lia.
  exists g. split; [exact Hg|]. split; [exact Hv|].
  unfold example.heightAt. rewrite Hrect. unfold grid_at in Hv.
  destruct (g !! Z.to_nat (x - x1)) as [row|] eqn:Hrow; [|discriminate].
  assert (Hx0 : 0 <= x - x1) by lia. assert (Hz0 : 0 <= z - z1) by lia.
  rewrite (py_getitem_in_range g (x - x1) row Hx0 Hrow). simpl.
  exact (py_getitem_in_range row (z - z1) v Hz0 Hv).
Qed.

End LoaderMore.

Section BiomeFacts.

Import worldLoader.
Context {B : Type}.
Variable BIOMES : gmap Z string.

Lemma quarter_cell (x x' r : Z) :
  r mod 4 = 0 -> x / 4 = x' / 4 ->
  (x - r) / 16 = (x' - r) / 16 /\ (x mod 16) / 4 = (x' mod 16) / 4.
Proof. intros Hr Hq. Z.to_euclidean_division_equations. lia. Qed.

(** X19. Biomes are stored per block of four by four by four.  When the
    origin of the region is a multiple of four on both axes, two
    coordinates in the same such block get the same answer from
    [getBiomeAt], an exception included. *)
Theorem getBiomeAt_quarter_resolution
    (ws : WorldSlice_of B) (x y z x' y' z' : Z) (rx rz w h : Z) :
  rect ws = (rx, rz, w, h) ->
  rx mod 4 = 0 -> rz mod 4 = 0 ->
  x / 4 = x' / 4 -> y / 4 = y' / 4 -> z / 4 = z' / 4 ->
  getBiomeAt BIOMES ws x y z = getBiomeAt BIOMES ws x' y' z'.
Proof.
  intros Hrect Hrx Hrz Hx Hy Hz.
  destruct (quarter_cell x x' rx Hrx Hx) as [Hcx Hix].
  destruct (quarter_cell z z' rz Hrz Hz) as [Hcz Hiz].
  unfold getBiomeAt, chunk_biomes, biome_chunkID, biome_index.
  rewrite Hrect. destruct (chunkRect ws) as [[[? ?] cxl] ?].
  by rewrite Hcx, Hcz, Hix, Hiz, Hy.
Qed.

Lemma StronglySorted_le_lt (l : list Z) :
  StronglySorted Z.le l -> NoDup l -> StronglySorted Z.lt l.
Proof.
  induction 1 as [|a l Hs IH Hall]; intros Hnd; [constructor|].
  apply NoDup_cons in Hnd as [Ha Hnd]. constructor; [by apply IH|].
  rewrite Forall_forall in Hall |- *. intros b Hb.
  pose proof (Hall b Hb). assert (a <> b) by (intros ->; contradiction). lia.
Qed.

Lemma sorted_set_spec (data : list Z) :
  StronglySorted Z.lt (sorted_set data) /\
  forall i, i ∈ sorted_set data <-> i ∈ data.
Proof.
  unfold sorted_set. split.
  - apply StronglySorted_le_lt.
    + apply StronglySorted_merge_sort; apply _.
    + rewrite merge_sort_Permutation. apply NoDup_remove_dups.
  - intros i. rewrite merge_sort_Permutation. apply elem_of_remove_dups.
Qed.

Lemma comprehension_known (ids : list Z) :
  (forall i, i ∈ ids -> is_Some (BIOMES !! i)) ->
  exists names,
    comprehension (biome_name BIOMES) ids = Return names /\
    Forall2 (fun i name => BIOMES !! i = Some name) ids names.
Proof.
  induction ids as [|i ids IH]; intros Hknown.
  - exists []. split; [reflexivity|constructor].
  - destruct (Hknown i ltac:(by left)) as [name Hname].
    destruct IH as (names & Hrun & Hall); [intros; apply Hknown; by right|].
    exists (name :: names). simpl. unfold biome_name at 1. rewrite Hname. simpl.
    rewrite Hrun. simpl. split; [reflexivity|by constructor].
Qed.

Lemma comprehension_unknown (ids : list Z) (i : Z) :
  i ∈ ids -> BIOMES !! i = None ->
  comprehension (biome_name BIOMES) ids = Raise KeyError.
Proof.
  induction ids as [|j ids IH]; intros Hin Hnone; [by apply elem_of_nil in Hin|].
  simpl. unfold biome_name at 1.
  destruct (BIOMES !! j) as [name|] eqn:Hj; [|reflexivity]. simpl.
  apply elem_of_cons in Hin as [->|Hin]; [congruence|].
  by rewrite IH.
Qed.

(** X20. [getBiomesNear] names every biome number that occurs in the
    chunk's biome array exactly once, in ascending order of the numbers,
    whatever [y] is; a number missing from [BIOMES] makes it raise
    [KeyError]. *)
Theorem getBiomesNear_sorted_distinct
    (ws : WorldSlice_of B) (x y z : Z) (data : list Z) :
  chunk_biomes ws x z = Return data ->
  exists ids,
    StronglySorted Z.lt ids /\
    (forall i, i ∈ ids <-> i ∈ data) /\
    ((forall i, i ∈ data -> is_Some (BIOMES !! i)) ->
     exists names,
       getBiomesNear BIOMES ws x y z = Return names /\
       Forall2 (fun i name => BIOMES !! i = Some name) ids names) /\
    (forall i, i ∈ data -> BIOMES !! i = None ->
       getBiomesNear BIOMES ws x y z = Raise KeyError).
Proof.
  intros Hdata. exists (sorted_set data).
  destruct (sorted_set_spec data) as [Hsorted Helem].
  split; [exact Hsorted|]. split; [exact Helem|].
  unfold getBiomesNear. rewrite Hdata. simpl. split.
  - intros Hknown. apply comprehension_known.
    intros i Hi. apply Hknown. by apply Helem.
  - intros i Hi Hnone. apply (comprehension_unknown _ i); [by apply Helem|exact Hnone].
Qed.

Lemma fold_max_key (key : Z -> nat) (rest : list Z) : forall a,
  let m := fold_left (fun best v => if (key best <? key v)%nat then v else best)
                     rest a in
  m ∈ a :: rest /\ forall w, w ∈ a :: rest -> (key w <= key m)%nat.
Proof.
  induction rest as [|v rest IH]; intros a; simpl.
  - split; [by left|]. intros w Hw. apply list_elem_of_singleton in Hw as ->. lia.
  - destruct (IH (if (key a <? key v)%nat then v else a)) as [Hin Hmax].
    split.
    + apply elem_of_cons in Hin as [Hin|Hin]; [|by do 2 right].
      rewrite Hin. destruct (key a <? key v)%nat; [right; by left|by left].
    + intros w Hw.
      assert (Hbest : (key a <= key (if (key a <? key v)%nat then v else a))%nat
                      /\ (key v <= key (if (key a <? key v)%nat then v else a))%nat).
      { destruct (Nat.ltb_spec (key a) (key v)); lia. }
      pose proof (Hmax _ ltac:(by left)) as Hm.
      apply elem_of_cons in Hw as [->|Hw]; [lia|].
      apply elem_of_cons in Hw as [->|Hw]; [lia|].
      apply Hmax. by right.
Qed.

(** X21. [getPrimaryBiomeNear] names a biome number of the chunk that no
    other number of the chunk outnumbers, in whatever order the set of
    numbers is iterated; on an empty biome array it raises [ValueError]. *)
Theorem getPrimaryBiomeNear_most_frequent
    (set_iter : list Z -> list Z)
    (ws : WorldSlice_of B) (x y z : Z) (data : list Z) :
  (forall v, v ∈ set_iter data <-> v ∈ data) ->
  chunk_biomes ws x z = Return data ->
  (data = [] ->
   getPrimaryBiomeNear BIOMES set_iter ws x y z = Raise ValueError) /\
  (data <> [] ->
   exists id,
     id ∈ data /\
     (forall w, w ∈ data -> (count data w <= count data id)%nat) /\
     getPrimaryBiomeNear BIOMES set_iter ws x y z = biome_name BIOMES id).
Proof.
  intros Hiter Hdata. unfold getPrimaryBiomeNear. rewrite Hdata. simpl.
  destruct (set_iter data) as [|a rest] eqn:Hset.
  - split; [reflexivity|]. intros Hne. exfalso.
    destruct data as [|d data]; [congruence|].
    pose proof (proj2 (Hiter d) ltac:(by left)) as H. by apply elem_of_nil in H.
  - split.
    + intros ->. pose proof (proj1 (Hiter a) ltac:(by left)) as H.
      by apply elem_of_nil in H.
    + intros _. destruct (fold_max_key (count data) rest a) as [Hin Hmax].
      eexists. split; [apply Hiter; exact Hin|].
      split; [|reflexivity].
      intros w Hw. apply Hmax. by apply Hiter.
Qed.

(** X22. For a region whose origin is chunk-aligned, the chunk that the
    biome queries read is the chunk that the block query resolves for the
    same coordinate. *)
Theorem biome_chunk_is_block_chunk
    (ws : WorldSlice_of B) (x z x1 z1 w h cxl czl : Z) :
  rect ws = (x1, z1, w, h) ->
  chunkRect ws = (x1 / 16, z1 / 16, cxl, czl) ->
  x1 mod 16 = 0 -> z1 mod 16 = 0 ->
  biome_chunkID ws x z = (x / 16 - x1 / 16) + (z / 16 - z1 / 16) * cxl.
Proof.
  intros Hrect Hcr Hx1 Hz1. unfold biome_chunkID. rewrite Hrect, Hcr.
  assert (Hx : (x - x1) / 16 = x / 16 - x1 / 16)
    by (Z.to_euclidean_division_equations; lia).
  assert (Hz : (z - z1) / 16 = z / 16 - z1 / 16)
    by (Z.to_euclidean_division_equations; lia).
  by rewrite Hx, Hz.
Qed.

(** X23. The text of [__repr__] is the constructor call that made the
    slice: the exclusive corner is rebuilt from the stored origin and size. *)
Theorem repr_is_constructor_call
    `{codec : Codec}
    (x1 z1 x2 z2 : Z) (types : option (list string)) (chunks : list NbtChunk)
    (ws : WorldSlice_of bitarray) :
  worldLoader.__init__ x1 z1 x2 z2 types chunks = Return ws ->
  __repr__ ws =
    "WorldSlice(" +:+ fmt x1 +:+ ", " +:+ fmt z1 +:+ ", " +:+ fmt x2 +:+ ", "
      +:+ fmt z2 +:+ ")".
Proof.
  intros Hinit. apply init_Return in Hinit as (_ & Hrect & _ & _).
  unfold __repr__. rewrite Hrect. cbv zeta beta iota.
  replace (x1 + (x2 - x1)) with x2 by lia.
  replace (z1 + (z2 - z1)) with z2 by lia. reflexivity.
Qed.

End BiomeFacts.

Section LoaderEdges.

Import worldLoader.
Context `{codec : Codec}.


(** X25. Above the sixteen sections, and more than sixteen sections below
    zero, there is nothing to read: in a constructed slice every query with
    [y >= 256] or [y < -256] answers ["minecraft:void_air"], wherever [x]
    and [z] are. *)
Theorem beyond_height_range_is_void_air
    (x1 z1 x2 z2 : Z) (types : option (list string)) (chunks : list NbtChunk)
    (ws : WorldSlice_of bitarray) (x y z : Z) :
  __init__ x1 z1 x2 z2 types chunks = Return ws ->
  256 <= y \/ y < -256 ->
  getBlockCompoundAt ws x y z = Return None /\
  getBlockAt ws x y z = Return "minecraft:void_air".
Proof.
  intros Hinit Hy.
  apply init_Return in Hinit as (Hrect & _ & _ & Hload).
  apply load_sections_shaped in Hload as [_ Hall].
  assert (Hcy : 16 <= y / 16 \/ y / 16 < -16)
    by (Z.to_euclidean_division_equations; lia).
  assert (H : getBlockCompoundAt ws x y z = Return None).
  { unfold getBlockCompoundAt. rewrite Hrect. unfold get_section.
    destruct (py_getitem (sections ws) (x / 16 - x1 / 16)) as [col|e] eqn:E1; simpl.
    2:{ by rewrite (py_getitem_Raise _ _ _ E1). }
    apply py_getitem_Return in E1 as (n & _ & Hcol).
    pose proof (Forall_lookup_1 _ _ _ _ Hall Hcol) as [_ Hcells].
    destruct (py_getitem col (z / 16 - z1 / 16)) as [cell|e] eqn:E2; simpl.
    2:{ by rewrite (py_getitem_Raise _ _ _ E2). }
    apply py_getitem_Return in E2 as (m & _ & Hcell).
    pose proof (Forall_lookup_1 _ _ _ _ Hcells Hcell) as Hlen. simpl in Hlen.
    rewrite py_getitem_outside; [reflexivity|]. rewrite Hlen. lia. }
  split; [exact H|]. unfold getBlockAt. by rewrite H.
Qed.

End LoaderEdges.

(** ** Concrete runs for the further properties *)

Section MoreRuns.

Import interfaceUtils.

Lemma getBlock_run :
  buffering (self unbuffered) = false /\
  getBlock always_up 1 2 3 unbuffered =
    (Return "1",
     mkState (self unbuffered) [GET "http://localhost:9000/blocks?x=1&y=2&z=3"]) /\
  snd (setBlock always_up 1 2 3 "stone" unbuffered) =
    mkState (self unbuffered)
      [PUT "http://localhost:9000/blocks?x=1&y=2&z=3" "stone"].
Proof.
  split; [reflexivity|].
  exact (getBlock_reads_where_setBlock_writes always_up 1 2 3 "stone" unbuffered
           eq_refl).
Defined.

Lemma always_up_transient : transient_only always_up.
Proof. intros n e H. discriminate. Qed.

Lemma fill_zero_offset_run :
  transient_only always_up /\
  buffering (self unbuffered) = false /\
  offset (self unbuffered) = (0, 0, 0) /\
  fill always_up 1 0 0 0 0 1 "stone" unbuffered =
    (Return tt,
     mkState (self unbuffered)
       [PUT "http://localhost:9000/blocks?x=0&y=0&z=0" "stone";
        PUT "http://localhost:9000/blocks?x=0&y=0&z=1" "stone";
        PUT "http://localhost:9000/blocks?x=1&y=0&z=0" "stone";
        PUT "http://localhost:9000/blocks?x=1&y=0&z=1" "stone"]).
Proof.
  split; [exact always_up_transient|]. do 2 (split; [reflexivity|]).
  exact (proj1 (fill_zero_offset_covers_cuboid always_up 1 0 0 0 0 1 "stone"
                  unbuffered always_up_transient eq_refl eq_refl)).
Defined.

Lemma fill_buffered_run :
  buffering (self roomy) = true /\
  fill always_up 0 0 0 1 0 0 "stone" roomy =
    (Return tt,
     mkState (mkInterface (1, 0, 0) true 100 [(2, 0, 0, "stone"); (3, 0, 0, "stone")])
             []).
Proof.
  split; [reflexivity|].
  pose proof (fill_buffered_accumulates always_up 0 0 0 1 0 0 "stone" roomy) as H.
  simpl in H. apply H; [reflexivity|].
  vm_compute. reflexivity.
Defined.

Lemma failed_flush_run :
  buffering (self eager) = true /\
  setBlocks up_after_six [(1, 2, 3, "stone"); (4, 5, 6, "dirt")] eager =
    (Return tt,
     mkState (mkInterface (0, 0, 0) true 1 [])
       (replicate 6 (PUT "http://localhost:9000/blocks?x=0&y=0&z=0" "1 2 3 stone")
        ++ [PUT "http://localhost:9000/blocks?x=0&y=0&z=0"
                ("1 2 3 stone" +:+ newline +:+ "4 5 6 dirt")])).
Proof.
  split; [reflexivity|].
  refine (proj2 (failed_flush_is_resent up_after_six (1, 2, 3, "stone")
                   (4, 5, 6, "dirt") eager "1" eq_refl _ _ eq_refl)).
  - simpl. lia.
  - intros j Hj. simpl.
    destruct j as [|[|[|[|[|[|j]]]]]]; try reflexivity. lia.
Defined.

Lemma requestBuildArea_run :
  area_up (length (sent shifted)) = AreaResponse true "" (JsonArea 10 20 30 50) /\
  requestBuildArea area_up shifted =
    (Return (Tuple [6; 15; 16; 25]),
     mkState (self shifted) [GET "http://localhost:9000/buildarea"]).
Proof.
  split; [reflexivity|].
  destruct (requestBuildArea_origin_is_local area_up shifted "" 10 20 30 50 eq_refl)
    as (lx & lz & dx & dz & Hrun & _). reflexivity.
Defined.

Lemma requestBuildArea_unset_run :
  area_unset (length (sent shifted)) = AreaResponse true "-1" JsonMinusOne /\
  requestBuildArea area_unset shifted =
    (Return MinusOne,
     mkState (self shifted) [GET "http://localhost:9000/buildarea"]).
Proof.
  split; [reflexivity|].
  exact (requestBuildArea_without_area area_unset shifted true "-1" JsonMinusOne
           eq_refl (or_intror eq_refl)).
Defined.

Lemma fill_unbuffered_run :
  transient_only always_up /\
  fill always_up 0 0 0 1 0 0 "stone" shifted =
    (Return tt,
     mkState (self shifted)
       [PUT "http://localhost:9000/blocks?x=8&y=0&z=10" "stone";
        PUT "http://localhost:9000/blocks?x=9&y=0&z=10" "stone"]).
Proof.
  split; [exact always_up_transient|].
  exact (fill_unbuffered_requests always_up 0 0 0 1 0 0 4 0 5 "stone" shifted
           always_up_transient eq_refl eq_refl).
Defined.

Lemma sendBlocks_without_retries_run :
  -1 <= 0 /\
  sendBlocks never_up 0 0 0 (-1) one_pending =
    (Return None,
     mkState (self one_pending)
       [PUT "http://localhost:9000/blocks?x=0&y=0&z=0" "1 2 3 stone"]).
Proof.
  split; [lia|].
  exact (sendBlocks_without_retries never_up 0 0 0 (-1) one_pending ltac:(lia)).
Defined.

(** X10 on the shared list holding (1, 2, 3, stone).  With limit 50 the
    call for (4, 5, 6, dirt) only appends.  With limit 2 and a server that
    answers, one request goes out whose body is the two lines
    [~1 ~2 ~3 stone] and [~4 ~5 ~6 dirt], and the list is emptied.  With
    limit 2 and a server that is down, that request is sent six times, the
    list keeps both entries and the call returns [None]. *)
Lemma deprecated_placeBlockBatched_run :
  let both := [(1, 2, 3, "stone"); (4, 5, 6, "dirt")] in
  let put :=
    PUT "http://localhost:9000/blocks?x=0&y=0&z=0"
      ("~1 ~2 ~3 stone" +:+ String (Ascii.ascii_of_nat 10) "~4 ~5 ~6 dirt") in
  deprecated.placeBlockBatched always_up 4 5 6 "dirt" 50 legacy_one =
    (Return None, deprecated.mkGstate both []) /\
  deprecated.placeBlockBatched always_up 4 5 6 "dirt" 2 legacy_one =
    (Return (Some "1"), deprecated.mkGstate [] [put]) /\
  deprecated.placeBlockBatched never_up 4 5 6 "dirt" 2 legacy_one =
    (Return None, deprecated.mkGstate both (replicate 6 put)).
Proof.
  cbv zeta. split; [|split].
  - destruct (deprecated_placeBlockBatched always_up 4 5 6 "dirt" 50 legacy_one)
      as (Hbelow & _ & _).
    exact (Hbelow ltac:(simpl; lia)).
  - destruct (deprecated_placeBlockBatched always_up 4 5 6 "dirt" 2 legacy_one)
      as (_ & Hsent & _).
    exact (Hsent ltac:(simpl; lia) "1" eq_refl).
  - destruct (deprecated_placeBlockBatched never_up 4 5 6 "dirt" 2 legacy_one)
      as (_ & _ & Hdown).
    exact (Hdown ltac:(simpl; lia) (fun _ _ => eq_refl)).
Defined.

End MoreRuns.

Section MoreSliceRuns.

Import worldLoader.
Local Existing Instance PackedIntArray.codec.

Abbreviation WorldSlice := (WorldSlice_of PackedIntArray.t).

Lemma constructed_slice_run :
  worldLoader.__init__ 0 0 16 16 (Some []) [stone_chunk] = Return stone_slice /\
  rect stone_slice = (0, 0, 16, 16) /\
  chunkRect stone_slice = (0, 0, 1, 1) /\
  length (sections stone_slice) = 1%nat.
Proof.
  split; [exact stone_slice_loaded|].
  pose proof (constructed_slice_layout (codec := PackedIntArray.codec)
                0 0 16 16 (Some []) [stone_chunk] stone_slice stone_slice_loaded)
    as (H1 & H2 & _ & H3 & _).
  split; [exact H1|]. split; [exact H2|exact H3].
Defined.

Lemma missing_chunk_run :
  (0 < ceil_div16 (16 - 0) /\ 0 < ceil_div16 (16 - 0) /\
   Z.of_nat (length (@nil NbtChunk)) < ceil_div16 (16 - 0) * ceil_div16 (16 - 0)) /\
  exists e, worldLoader.__init__ 0 0 16 16 (Some []) [] = Raise e.
Proof.
  split; [vm_compute; repeat split|].
  apply (construction_needs_every_chunk (codec := PackedIntArray.codec)
           0 0 16 16 (Some []) []); vm_compute; reflexivity.
Defined.

Lemma stored_section_run :
  worldLoader.__init__ 0 0 16 16 (Some []) [partial_chunk] = Return partial_slice /\
  getBlockCompoundAt partial_slice 3 20 7 = Return (Some stone) /\
  getBlockAt partial_slice 3 20 7 = Return "minecraft:stone".
Proof.
  split; [exact partial_slice_loaded|].
  pose proof (stored_section_is_read (codec := PackedIntArray.codec)
                0 0 16 16 (Some []) [partial_chunk] partial_slice 3 20 7
                partial_chunk [bare_section 0] [] (stone_section 1) [stone]
                (PackedIntArray.mk 4 4096 (replicate 256 0)) 1%nat 0 stone
                partial_slice_loaded) as H.
  cbv zeta in H. apply H.
  - vm_compute. split; congruence.
  - vm_compute. split; congruence.
  - vm_compute. reflexivity.
  - reflexivity.
  - reflexivity.
  - reflexivity.
  - vm_compute. reflexivity.
  - vm_compute. reflexivity.
  - vm_compute. reflexivity.
  - intros s0 Hin. by apply elem_of_nil in Hin.
  - vm_compute. reflexivity.
  - lia.
  - reflexivity.
Defined.

Lemma ramp_slice_loads : exists ws : WorldSlice, ramp_slice = Return ws.
Proof. vm_compute. eexists. reflexivity. Qed.

Lemma heightmaps_layout_run :
  exists ws : WorldSlice,
    ramp_slice = Return ws /\
    exists g, heightmaps ws !! "MOTION_BLOCKING" = Some g /\ length g = 17%nat /\
              forall row, row ∈ g -> length row = 2%nat.
Proof.
  destruct ramp_slice_loads as [ws Hws]. exists ws. split; [exact Hws|].
  apply (proj1 (heightmaps_layout (codec := PackedIntArray.codec)
                  2 0 18 1 (Some ["MOTION_BLOCKING"]) [ramp_chunk] ws
                  "MOTION_BLOCKING" Hws)).
  simpl. by left.
Defined.

Lemma heightmap_cell_run :
  exists (ws : WorldSlice) g,
    ramp_slice = Return ws /\
    heightmaps ws !! "MOTION_BLOCKING" = Some g /\
    grid_at g 3 0 = Some 105 /\
    example.heightAt g (rect ws) 5 0 = Return 105.
Proof.
  destruct ramp_slice_loads as [ws Hws].
  destruct (heightmap_cell_holds_sample (codec := PackedIntArray.codec)
              2 0 18 1 (Some ["MOTION_BLOCKING"]) [ramp_chunk] ws
              "MOTION_BLOCKING" 5 0 ramp_chunk
              (PackedIntArray.encode 9 ramp_samples)
              (PackedIntArray.mk 9 256 (PackedIntArray.encode 9 ramp_samples))
              105 Hws) as (g & Hg & Hv & Hh).
  - simpl. by left.
  - lia.
  - lia.
  - vm_compute. discriminate.
  - vm_compute. discriminate.
  - vm_compute. reflexivity.
  - vm_compute. reflexivity.
  - vm_compute. reflexivity.
  - vm_compute. reflexivity.
  - vm_compute. reflexivity.
  - vm_compute. reflexivity.
  - exists ws, g. split; [exact Hws|]. split; [exact Hg|]. split; [exact Hv|exact Hh].
Defined.

Lemma quarter_resolution_run :
  (rect biome_slice = (0, 0, 16, 16) /\ 0 mod 4 = 0 /\
   4 / 4 = 7 / 4 /\ 0 / 4 = 3 / 4 /\ 0 / 4 = 2 / 4) /\
  getBiomeAt some_biomes biome_slice 4 0 0 = Return "plains" /\
  getBiomeAt some_biomes biome_slice 7 3 2 = Return "plains".
Proof.
  split; [repeat split|]. split; [reflexivity|].
  rewrite <- (getBiomeAt_quarter_resolution some_biomes biome_slice
                4 0 0 7 3 2 0 0 16 16 eq_refl eq_refl eq_refl eq_refl eq_refl eq_refl).
  reflexivity.
Defined.

Lemma biomes_near_run :
  chunk_biomes biome_slice 3 5 = Return [4; 1; 4; 7; 4; 1] /\
  getBiomesNear some_biomes biome_slice 3 60 5
    = Return ["plains"; "forest"; "river"].
Proof.
  split; [reflexivity|].
  destruct (getBiomesNear_sorted_distinct some_biomes biome_slice 3 60 5
              [4; 1; 4; 7; 4; 1] eq_refl) as (ids & _ & _ & _ & _).
  reflexivity.
Defined.

Lemma primary_biome_run :
  chunk_biomes biome_slice 3 5 = Return [4; 1; 4; 7; 4; 1] /\
  getPrimaryBiomeNear some_biomes remove_dups biome_slice 3 60 5 = Return "forest".
Proof.
  split; [reflexivity|].
  destruct (getPrimaryBiomeNear_most_frequent some_biomes remove_dups
              biome_slice 3 60 5 [4; 1; 4; 7; 4; 1]
              (fun v => elem_of_remove_dups _ v) eq_refl) as [_ H].
  destruct (H ltac:(discriminate)) as (id & _ & _ & Hrun). reflexivity.
Defined.

Lemma biome_chunk_run :
  (rect stone_slice = (0, 0, 16, 16) /\ chunkRect stone_slice = (0 / 16, 0 / 16, 1, 1)
   /\ 0 mod 16 = 0) /\
  biome_chunkID stone_slice 5 9 = (5 / 16 - 0 / 16) + (9 / 16 - 0 / 16) * 1.
Proof.
  split; [repeat split|].
  exact (biome_chunk_is_block_chunk stone_slice 5 9 0 0 16 16 1 1
           eq_refl eq_refl eq_refl eq_refl).
Defined.

Lemma repr_run :
  worldLoader.__init__ 0 0 16 16 (Some []) [stone_chunk] = Return stone_slice /\
  __repr__ stone_slice = "WorldSlice(0, 0, 16, 16)".
Proof.
  split; [exact stone_slice_loaded|].
  exact (repr_is_constructor_call (codec := PackedIntArray.codec)
           0 0 16 16 (Some []) [stone_chunk] stone_slice stone_slice_loaded).
Defined.

Lemma beyond_height_run :
  worldLoader.__init__ 0 0 16 16 (Some []) [stone_chunk] = Return stone_slice /\
  getBlockCompoundAt stone_slice 3 256 7 = Return None /\
  getBlockAt stone_slice 3 256 7 = Return "minecraft:void_air".
Proof.
  split; [exact stone_slice_loaded|].
  apply (beyond_height_range_is_void_air (codec := PackedIntArray.codec)
           0 0 16 16 (Some []) [stone_chunk] stone_slice 3 256 7 stone_slice_loaded).
  left. lia.
Defined.

End MoreSliceRuns.
